(** * A shallow embedding of [search_mcp.perplexity_adapter] and of the
    [perplexity_search] tool of [search_mcp.server].

    Strings are [Stdlib.Strings.String.string] (ASCII code points); Python's
    [str.strip], [str.lower] and [len] are modelled on that alphabet.
    Exceptions are records carrying the class (as far as the [isinstance]
    tests of the code look at it), the class name and the message. *)

From Stdlib Require Import String Ascii List ZArith Arith Bool Lia.
From Stdlib Require Import DecimalString Permutation.
Import ListNotations.
Open Scope string_scope.
Open Scope nat_scope.

(** ** Python string helpers *)

(** Characters for which [str.isspace] holds, restricted to ASCII:
    [\t \n \x0b \x0c \r \x1c \x1d \x1e \x1f] and the space. *)
Definition py_isspace (c : ascii) : bool :=
  let n := nat_of_ascii c in
  ((9 <=? n) && (n <=? 13)) || ((28 <=? n) && (n <=? 32)).

Fixpoint lstrip (s : string) : string :=
  match s with
  | EmptyString => EmptyString
  | String c r => if py_isspace c then lstrip r else s
  end.

Definition rstrip (s : string) : string :=
  string_of_list_ascii (rev (list_ascii_of_string (lstrip (string_of_list_ascii
    (rev (list_ascii_of_string s)))))).

(** [str.strip()] *)
Definition strip (s : string) : string := lstrip (rstrip s).

(** [str.lower()] on ASCII. *)
Definition lower_char (c : ascii) : ascii :=
  let n := nat_of_ascii c in
  if (65 <=? n) && (n <=? 90) then ascii_of_nat (n + 32) else c.

Fixpoint lower (s : string) : string :=
  match s with
  | EmptyString => EmptyString
  | String c r => String (lower_char c) (lower r)
  end.

(** The [in] operator on strings: [needle in hay]. *)
Fixpoint contains (needle hay : string) : bool :=
  if String.prefix needle hay then true
  else match hay with
       | EmptyString => false
       | String _ r => contains needle r
       end.

(** Python's [any(k in s for k in ks)]. *)
Definition any_in (ks : list string) (s : string) : bool :=
  existsb (fun k => contains k s) ks.

Definition nat_to_string (n : nat) : string :=
  NilEmpty.string_of_uint (Nat.to_uint n).

Definition Z_to_string (z : Z) : string :=
  NilEmpty.string_of_int (Z.to_int z).

Fixpoint repeat_char (n : nat) (c : ascii) : string :=
  match n with
  | O => EmptyString
  | S k => String c (repeat_char k c)
  end.

(** ** Python values read from the provider response *)

(** The values a provider attribute can carry, as far as the adapter looks
    at them: truthiness and [str()]. An absent attribute is read by
    [getattr(obj, name, None)] and so is [PyNone]. *)
Inductive pyval : Type :=
| PyNone
| PyStr (s : string)
| PyInt (z : Z)
| PyBool (b : bool).

Definition truthy (v : pyval) : bool :=
  match v with
  | PyNone => false
  | PyStr s => negb (String.eqb s "")
  | PyInt z => negb (Z.eqb z 0)
  | PyBool b => b
  end.

(** [str(v)] *)
Definition py_str (v : pyval) : string :=
  match v with
  | PyNone => "None"
  | PyStr s => s
  | PyInt z => Z_to_string z
  | PyBool true => "True"
  | PyBool false => "False"
  end.

(** [a or b] *)
Definition py_or (a b : pyval) : pyval := if truthy a then a else b.

(** ** Exceptions *)

(** The classes the code distinguishes with [isinstance]. [OSError] is
    [EnvironmentError]; the built-in [TimeoutError] and [ConnectionError]
    (with its subclasses such as [ConnectionRefusedError]) are subclasses of
    [OSError]. [HttpxTransportError] is [httpx.TransportError] and its
    subclasses [ConnectError], [ConnectTimeout], [ReadTimeout] (none of which
    derive from [OSError]). [OtherBaseException] is a [BaseException] that is
    not an [Exception] (e.g. [KeyboardInterrupt]). *)
Inductive exc_class : Type :=
| ValueError
| OSError
| TimeoutError
| ConnectionError
| RuntimeError
| HttpxTransportError
| OtherException
| OtherBaseException.

(** An exception whose [str()] returns; [exc_obj] below also covers one
    whose [__str__] raises. *)
Record exc : Type := mk_exc {
  exc_cls : exc_class;
  exc_name : string;   (** [exc.__class__.__name__] *)
  exc_msg : string     (** [str(exc)] *)
}.

Definition isinstance_ValueError (e : exc) : bool :=
  match exc_cls e with ValueError => true | _ => false end.

Definition isinstance_EnvironmentError (e : exc) : bool :=
  match exc_cls e with
  | OSError | TimeoutError | ConnectionError => true
  | _ => false
  end.

Definition isinstance_RuntimeError (e : exc) : bool :=
  match exc_cls e with RuntimeError => true | _ => false end.

Definition isinstance_TimeoutError (e : exc) : bool :=
  match exc_cls e with TimeoutError => true | _ => false end.

Definition isinstance_httpx_transient (e : exc) : bool :=
  match exc_cls e with HttpxTransportError => true | _ => false end.

Definition isinstance_Exception (e : exc) : bool :=
  match exc_cls e with OtherBaseException => false | _ => true end.

Inductive result (A : Type) : Type :=
| Ok (a : A)
| Err (e : exc).
Arguments Ok {A} a.
Arguments Err {A} e.

(** ** [_is_transient_error] (httpx is a declared dependency and imported) *)

Definition transient_name_keys : list string :=
  ["timeout"; "connect"; "network"; "transport"].

Definition transient_msg_keys : list string :=
  ["timeout"; "timed out"; "connection"; "transport";
   "temporarily unavailable"; "try again"].

Definition _is_transient_error (e : exc) : bool :=
  if isinstance_httpx_transient e then true
  else
    let name := lower (exc_name e) in
    let msg := lower (exc_msg e) in
    if any_in transient_name_keys name then true
    else if any_in transient_msg_keys msg then true
    else false.

(** Any exception object: [obj_str] is the outcome of [str(exc)], which
    runs the class's [__str__] and raises what it raises. *)
Record exc_obj : Type := mk_exc_obj {
  obj_cls : exc_class;
  obj_name : string;
  obj_str : result string
}.

(** [_is_transient_error] on any exception object: the unguarded
    [str(exc)] comes before the keyword checks. *)
Definition _is_transient_error_obj (x : exc_obj) : result bool :=
  match obj_cls x with
  | HttpxTransportError => Ok true
  | _ =>
      let name := lower (obj_name x) in
      match obj_str x with
      | Err e => Err e
      | Ok s =>
          let msg := lower s in
          if any_in transient_name_keys name then Ok true
          else if any_in transient_msg_keys msg then Ok true
          else Ok false
      end
  end.

(** ** Request normalisation *)

Definition value_error (m : string) : exc := mk_exc ValueError "ValueError" m.

Definition _validate_query (query : string) : result string :=
  let q := strip query in
  if String.eqb q "" then
    Err (value_error "query must be a non-empty string after trimming whitespace")
  else if 4096 <? String.length q then
    Err (value_error "query exceeds maximum length of 4096 characters")
  else Ok q.

Definition is_ascii_digit (c : ascii) : bool :=
  let n := nat_of_ascii c in (48 <=? n) && (n <=? 57).

(** [sys.get_int_max_str_digits()] at its default: [int()] of a decimal
    string with more digits raises [ValueError]. *)
Definition int_max_str_digits : nat := 4300.

(** [int(s)] for a string: surrounding whitespace, an optional sign, and
    decimal digits with single underscores between digits, at most
    [int_max_str_digits] of them. *)
Definition digit_val (c : ascii) : option Z :=
  let n := nat_of_ascii c in
  if (48 <=? n) && (n <=? 57) then Some (Z.of_nat (n - 48)) else None.

Fixpoint parse_digits (s : string) (acc : Z) (prev_digit : bool) : option Z :=
  match s with
  | EmptyString => if prev_digit then Some acc else None
  | String c r =>
      if Ascii.eqb c "_" then
        if prev_digit then parse_digits r acc false else None
      else match digit_val c with
           | Some d => parse_digits r (acc * 10 + d)%Z true
           | None => None
           end
  end.

Definition py_int_of_string (s : string) : option Z :=
  match strip s with
  | String c r =>
      if int_max_str_digits <? length (filter is_ascii_digit (list_ascii_of_string (String c r)))
      then None
      else if Ascii.eqb c "-" then option_map Z.opp (parse_digits r 0%Z false)
      else if Ascii.eqb c "+" then parse_digits r 0%Z false
      else parse_digits (String c r) 0%Z false
  | EmptyString => None
  end.

(** [int(n)]; [None] when it raises. *)
Definition py_int (v : pyval) : option Z :=
  match v with
  | PyNone => None
  | PyStr s => py_int_of_string s
  | PyInt z => Some z
  | PyBool b => Some (if b then 1 else 0)%Z
  end.

Definition _MIN_RESULTS : Z := 1.
Definition _MAX_RESULTS : Z := 30.
Definition _DEFAULT_RESULTS : Z := 10.

Definition _clamp_num_results (n : pyval) : result Z :=
  match n with
  | PyNone => Ok _DEFAULT_RESULTS
  | _ =>
      match py_int n with
      | None => Err (value_error "num_results must be an integer")
      | Some v =>
          if (v <? _MIN_RESULTS)%Z then Ok _MIN_RESULTS
          else if (_MAX_RESULTS <? v)%Z then Ok _MAX_RESULTS
          else Ok v
      end
  end.

(** [_HOSTNAME_REGEX.match(d)] for [^[a-z0-9.-]+$]; Python's [$] also
    matches before a final newline. *)
Definition hostname_char (c : ascii) : bool :=
  let n := nat_of_ascii c in
  ((97 <=? n) && (n <=? 122)) || ((48 <=? n) && (n <=? 57))
  || (n =? 46) || (n =? 45).

Definition hostname_chars (l : list ascii) : bool :=
  match l with
  | [] => false
  | _ => forallb hostname_char l
  end.

Definition _HOSTNAME_REGEX_match (d : string) : bool :=
  let l := list_ascii_of_string d in
  hostname_chars l
  || match rev l with
     | c :: r => Ascii.eqb c "010" && hostname_chars (rev r)
     | [] => false
     end.

(** [repr] of a string: single quotes, or double quotes when the string
    holds a single quote and no double quote; the chosen quote and the
    backslash are escaped with a backslash, tab, newline and carriage
    return as [\t], [\n], [\r], and the other non-printable characters
    as [\xhh]. *)
Definition hex_digit (n : nat) : ascii :=
  match String.get n "0123456789abcdef" with Some c => c | None => "0"%char end.

Definition py_repr_char (quote c : ascii) : string :=
  let n := nat_of_ascii c in
  let backslash := ascii_of_nat 92 in
  if Ascii.eqb c quote || Ascii.eqb c backslash then String backslash (String c "")
  else if n =? 9 then String backslash "t"
  else if n =? 10 then String backslash "n"
  else if n =? 13 then String backslash "r"
  else if (n <? 32) || (n =? 127) || ((128 <=? n) && (n <=? 160)) || (n =? 173) then
    String backslash (String "x" (String (hex_digit (n / 16)) (String (hex_digit (n mod 16)) "")))
  else String c "".

(** [{raw!r}] for a string. *)
Definition py_repr (s : string) : string :=
  let l := list_ascii_of_string s in
  let single := ascii_of_nat 39 in
  let double := ascii_of_nat 34 in
  let quote := if existsb (Ascii.eqb single) l && negb (existsb (Ascii.eqb double) l)
               then double else single in
  String quote (String.concat "" (map (py_repr_char quote) l) ++ String quote "").

(** The [for raw in domains] loop, with [seen] and [normalized]. *)
Fixpoint normalize_domains_loop (ds seen normalized : list string)
  : result (list string) :=
  match ds with
  | [] => Ok normalized
  | raw :: rest =>
      let d := lower (strip raw) in
      if String.eqb d "" then
        Err (value_error "search_domain_filter contains an empty domain")
      else if any_in ["://"; "/"; " "] d then
        Err (value_error ("invalid domain (must be hostname only): " ++ py_repr raw))
      else if 253 <? String.length d then
        Err (value_error ("invalid domain (length > 253): " ++ py_repr raw))
      else if negb (_HOSTNAME_REGEX_match d) then
        Err (value_error ("invalid domain (allowed: a-z, 0-9, dot, hyphen): " ++ py_repr raw))
      else if existsb (String.eqb d) seen then
        normalize_domains_loop rest seen normalized
      else normalize_domains_loop rest (d :: seen) (normalized ++ [d])%list
  end.

(** [_normalize_domains]; the input is typed [Sequence[str] | None], so the
    list and item type checks are discharged by the Rocq type. *)
Definition _normalize_domains (domains : option (list string))
  : result (option (list string)) :=
  match domains with
  | None => Ok None
  | Some [] =>
      Err (value_error "search_domain_filter, when provided, must be a non-empty list")
  | Some l =>
      match normalize_domains_loop l [] [] with
      | Err e => Err e
      | Ok [] =>
          Err (value_error "search_domain_filter normalization resulted in an empty list")
      | Ok n => Ok (Some n)
      end
  end.

(** ** The client *)

(** The SDK client [Perplexity()]. *)
Inductive Perplexity : Type := mk_Perplexity.

(** [os.getenv] *)
Definition environ := string -> option string.

Definition _create_client (getenv : environ) : result Perplexity :=
  let api_key := strip (match getenv "PERPLEXITY_API_KEY" with
                        | Some v => v | None => "" end) in
  if String.eqb api_key "" then
    Err (mk_exc OSError "OSError" "PERPLEXITY_API_KEY is required but missing or empty")
  else Ok mk_Perplexity.

(** ** The provider response and [_normalize_results] *)

(** A result item; an attribute the item lacks is [PyNone]. *)
Record item : Type := mk_item {
  it_title : pyval;
  it_url : pyval;
  it_date : pyval;
  it_snippet : pyval
}.

(** [search_response.results]: [None] when the attribute is absent or
    [None]. *)
Record response : Type := mk_response {
  resp_results : option (list item)
}.

(** The [SearchResult] dict; [sr_date = None] when the ["date"] key is not
    set. *)
Record SearchResult : Type := mk_SearchResult {
  sr_title : string;
  sr_url : string;
  sr_date : option string;
  sr_last_update : string;
  sr_snippet : string
}.

Definition normalize_item (it : item) : SearchResult :=
  let title := py_or (it_title it) (PyStr "") in
  let url := py_or (it_url it) (PyStr "") in
  let date := it_date it in
  let snippet := it_snippet it in
  let last_update := if truthy date then py_str date else "" in
  mk_SearchResult (py_str title) (py_str url)
    (if truthy date then Some (py_str date) else None)
    last_update
    (if truthy snippet then py_str snippet else "").

Definition _normalize_results (r : response) : list SearchResult :=
  match resp_results r with
  | None => []
  | Some [] => []
  | Some results => map normalize_item results
  end.

(** ** The provider call *)

(** The keyword arguments of [client.search.create]. *)
Record call_args : Type := mk_call_args {
  ca_query : string;
  ca_max_results : Z;
  ca_search_domain_filter : option (list string)
}.

Definition _call_search_args (q : string) (max_results : Z)
  (domain_filter : option (list string)) : call_args :=
  match domain_filter with
  | Some (_ :: _) => mk_call_args q max_results domain_filter
  | _ => mk_call_args q max_results None
  end.

Inductive call_result : Type :=
| Returned (r : response)
| Raised (e : exc).

(** One execution of [invoke]: how long it runs in milliseconds ([None]:
    it never finishes) and how it ends. *)
Record attempt : Type := mk_attempt {
  att_time : option nat;
  att_result : call_result
}.

(** The provider: given the client, the number of calls already made to it
    in this request, and the arguments, the execution of the call. The
    index lets a provider behave differently from one call to the next, as
    a stateful client does. *)
Definition provider (C : Type) := C -> nat -> call_args -> attempt.

(** ** [_TimeoutController.run]

    The deadline is [_timeout_seconds], given here in whole milliseconds
    ([timeout_ms = _timeout_seconds * 1000]). [future.result(timeout=...)]
    returns the outcome of a call that finishes within the deadline, and
    otherwise raises [FuturesTimeout], turned into [TimeoutError]. Since
    Python 3.11 [FuturesTimeout] is the built-in [TimeoutError], so the
    same [except] also replaces a [TimeoutError] the call itself raises.
    Leaving the [with ThreadPoolExecutor(...)] block calls
    [shutdown(wait=True)], which joins the worker thread: a call that never
    finishes never gives control back ([None]). *)
Definition timeout_exc (timeout_ms : nat) : exc :=
  mk_exc TimeoutError "TimeoutError"
    ("Perplexity search timed out after " ++ nat_to_string timeout_ms ++ "ms").

Definition controller_run (timeout_ms : nat) (a : attempt)
  : option (result (list SearchResult)) :=
  match att_time a with
  | None => None
  | Some d =>
      if d <=? timeout_ms then
        Some (match att_result a with
              | Returned r => Ok (_normalize_results r)
              | Raised e =>
                  if isinstance_TimeoutError e then Err (timeout_exc timeout_ms)
                  else Err e
              end)
      else Some (Err (timeout_exc timeout_ms))
  end.

(** ** [search_perplexity] *)

(** The observable actions of a request: calling [_client_factory()] and
    calling the provider through [_call_search]. *)
Inductive event (C : Type) : Type :=
| EvCreateClient
| EvCall (client : C) (args : call_args).
Arguments EvCreateClient {C}.
Arguments EvCall {C} client args.

(** [run_result = None]: the call never returns. *)
Record run (C : Type) : Type := mk_run {
  run_result : option (result (list SearchResult));
  run_trace : list (event C)
}.
Arguments mk_run {C} run_result run_trace.
Arguments run_result {C} r.
Arguments run_trace {C} r.

Definition wrap_after_retry (e : exc) : exc :=
  mk_exc OtherException "Exception"
    ("perplexity_search failed after retry: " ++ exc_name e ++ ": " ++ exc_msg e).

(** [isinstance(exc, (ValueError, EnvironmentError, RuntimeError))] *)
Definition no_retry_class (e : exc) : bool :=
  isinstance_ValueError e || isinstance_EnvironmentError e
  || isinstance_RuntimeError e.

Section Search.
Context {C : Type}.

(** [_client_factory()] is given by its outcome; [call] is the provider. *)
Definition search_perplexity (query : string) (num_results : pyval)
  (search_domain_filter : option (list string))
  (client_factory : result C) (call : provider C) (timeout_ms : nat) : run C :=
  match _validate_query query with
  | Err e => mk_run (Some (Err e)) []
  | Ok q =>
  match _clamp_num_results num_results with
  | Err e => mk_run (Some (Err e)) []
  | Ok max_results =>
  match _normalize_domains search_domain_filter with
  | Err e => mk_run (Some (Err e)) []
  | Ok domains =>
  match client_factory with
  | Err e => mk_run (Some (Err e)) [EvCreateClient]
  | Ok client =>
      let args := _call_search_args q max_results domains in
      let tr1 := [EvCreateClient; EvCall client args] in
      let tr2 := (tr1 ++ [EvCall client args])%list in
      (* first attempt *)
      match controller_run timeout_ms (call client 0 args) with
      | None => mk_run None tr1
      | Some (Ok v) => mk_run (Some (Ok v)) tr1
      | Some (Err exc1) =>
          if no_retry_class exc1 then mk_run (Some (Err exc1)) tr1
          else if negb (_is_transient_error exc1) then mk_run (Some (Err exc1)) tr1
          else
            (* single retry *)
            match controller_run timeout_ms (call client 1 args) with
            | None => mk_run None tr2
            | Some (Ok v) => mk_run (Some (Ok v)) tr2
            | Some (Err exc2) => mk_run (Some (Err (wrap_after_retry exc2))) tr2
            end
      end
  end end end end.

End Search.

Definition count_calls {C : Type} (tr : list (event C)) : nat :=
  length (filter (fun ev => match ev with EvCall _ _ => true | _ => false end) tr).

Definition count_creates {C : Type} (tr : list (event C)) : nat :=
  length (filter (fun ev => match ev with EvCreateClient => true | _ => false end) tr).

(** [search_perplexity] with its defaults: [_client_factory=_create_client]
    and [_timeout_seconds=5.0]. *)
Definition search_perplexity_default (getenv : environ) (query : string)
  (num_results : pyval) (search_domain_filter : option (list string))
  (call : provider Perplexity) : run Perplexity :=
  search_perplexity query num_results search_domain_filter
    (_create_client getenv) call 5000.

(** ** The [perplexity_search] tool of [server.py] (logging left out) *)

Definition perplexity_search (getenv : environ) (query : string)
  (num_results : pyval) (call : provider Perplexity)
  : option (result (list SearchResult)) :=
  match run_result (search_perplexity_default getenv query num_results None call) with
  | None => None
  | Some (Ok results) => Some (Ok results)
  | Some (Err e) =>
      if isinstance_ValueError e then Some (Err e)
      else if isinstance_EnvironmentError e || isinstance_RuntimeError e then Some (Err e)
      else if isinstance_Exception e then
        Some (Err (mk_exc OtherException "Exception"
          ("perplexity_search failed: " ++ exc_name e ++ ": " ++ exc_msg e)))
      else Some (Err e)
  end.

(** ** Providers used as concrete inputs *)

Definition ok_response : response :=
  mk_response (Some [mk_item (PyStr "ok") (PyStr "https://x") PyNone PyNone]).

(** A client whose first call raises [exc1] and whose later calls return
    [ok_response], all within 10 ms. *)
Definition flaky_provider {C : Type} (exc1 : exc) : provider C :=
  fun _ n _ =>
    match n with
    | O => mk_attempt (Some 10) (Raised exc1)
    | S _ => mk_attempt (Some 10) (Returned ok_response)
    end.

Definition httpx_connect_error : exc :=
  mk_exc HttpxTransportError "ConnectError" "boom".

Definition connection_refused : exc :=
  mk_exc ConnectionError "ConnectionRefusedError" "[Errno 111] Connection refused".

(** ** Further concrete inputs and helpers for the statements *)

(** A client whose calls never finish. *)
Definition hanging_provider {C : Type} : provider C :=
  fun _ _ _ => mk_attempt None (Returned ok_response).

Definition network_error : exc := mk_exc OtherException "NetworkError" "boom".

(** An exception object of a class [ConnectTimeoutish] whose [__str__]
    raises a [RuntimeError]. *)
Definition broken_str_error : exc :=
  mk_exc RuntimeError "RuntimeError" "__str__ failed".

Definition broken_str_obj : exc_obj :=
  mk_exc_obj OtherException "ConnectTimeoutish" (Err broken_str_error).

(** A provider attribute that is absent ([None]) or carries a string. *)
Definition opt_val (o : option string) : pyval :=
  match o with None => PyNone | Some s => PyStr s end.

Definition or_empty (o : option string) : string :=
  match o with None => "" | Some s => s end.

Definition example_response : response :=
  mk_response (Some
    [mk_item (PyStr "Title A") (PyStr "https://a") (PyStr "2024-01-01")
             (PyStr "Alpha snippet");
     mk_item (PyStr "Title B") (PyStr "https://b") PyNone PyNone]).

Definition falsy_item : item := mk_item PyNone (PyStr "") (PyStr "") (PyInt 0).

(** A [ValueError] whose message reads like a connectivity failure. *)
Definition value_error_timed_out : exc :=
  mk_exc ValueError "ValueError" "connection timed out, try again".

(** The entry as the loop checks it: [raw.strip().lower()]. *)
Definition norm_domain (raw : string) : string := lower (strip raw).

(** The entry checks of the loop, with the regex read as "only
    [a-z0-9.-]". *)
Definition bad_domain (d : string) : bool :=
  String.eqb d "" || contains "://" d || contains "/" d || contains " " d
  || (253 <? String.length d)
  || negb (forallb hostname_char (list_ascii_of_string d)).

(** Keep the first occurrence of each element, in order. *)
Fixpoint dedup_first (m : list string) : list string :=
  match m with
  | [] => []
  | x :: r => x :: remove string_dec x (dedup_first r)
  end.

Definition not_seen (seen : list string) (x : string) : bool :=
  negb (existsb (String.eqb x) seen).

(** ** Logging set-up of [server.py] *)

(** [str.upper()] on ASCII. *)
Definition upper_char (c : ascii) : ascii :=
  let n := nat_of_ascii c in
  if (97 <=? n) && (n <=? 122) then ascii_of_nat (n - 32) else c.

Fixpoint upper (s : string) : string :=
  match s with
  | EmptyString => EmptyString
  | String c r => String (upper_char c) (upper r)
  end.

(** [str.isdigit()] *)
Definition isdigit (s : string) : bool :=
  match s with
  | EmptyString => false
  | _ => forallb is_ascii_digit (list_ascii_of_string s)
  end.

(** What [getattr(logging, name)] gives for an all-uppercase [name]: the
    level constants, and the two other all-uppercase module attributes
    ([BASIC_FORMAT], a string, and [_STYLES], a dict); [None] is
    [AttributeError]. *)
Inductive logging_attr : Type :=
| LevelConst (n : Z)
| NonLevelAttr (name : string).

Definition logging_getattr (name : string) : option logging_attr :=
  if String.eqb name "CRITICAL" then Some (LevelConst 50)
  else if String.eqb name "FATAL" then Some (LevelConst 50)
  else if String.eqb name "ERROR" then Some (LevelConst 40)
  else if String.eqb name "WARNING" then Some (LevelConst 30)
  else if String.eqb name "WARN" then Some (LevelConst 30)
  else if String.eqb name "INFO" then Some (LevelConst 20)
  else if String.eqb name "DEBUG" then Some (LevelConst 10)
  else if String.eqb name "NOTSET" then Some (LevelConst 0)
  else if String.eqb name "BASIC_FORMAT" then Some (NonLevelAttr "BASIC_FORMAT")
  else if String.eqb name "_STYLES" then Some (NonLevelAttr "_STYLES")
  else None.

Definition logging_INFO : logging_attr := LevelConst 20.

Definition _parse_log_level (value : option string) : logging_attr :=
  match value with
  | None => logging_INFO
  | Some v =>
      if String.eqb v "" then logging_INFO
      else if isdigit v then
        match py_int_of_string v with
        | Some z => LevelConst z
        | None => logging_INFO
        end
      else match logging_getattr (upper v) with
           | Some a => a
           | None => logging_INFO
           end
  end.

(** The decimal value of a digit string, read left to right. *)
Definition dec_value (l : list ascii) : Z :=
  fold_left (fun acc c => acc * 10 + Z.of_nat (nat_of_ascii c - 48))%Z l 0%Z.

(** ** Facts about the retry structure *)

Lemma search_perplexity_calls_le_2 {C : Type} query nr dom
  (factory : result C) (call : provider C) T :
  count_calls (run_trace (search_perplexity query nr dom factory call T)) <= 2.
Proof.
  unfold search_perplexity, count_calls.
  destruct (_validate_query query); [|simpl; lia].
  destruct (_clamp_num_results nr); [|simpl; lia].
  destruct (_normalize_domains dom); [|simpl; lia].
  destruct factory as [c|]; [|simpl; lia].
  destruct (controller_run T _) as [[v|e1]|]; simpl; try lia.
  destruct (no_retry_class e1); simpl; try lia.
  destruct (_is_transient_error e1); simpl; try lia.
  destruct (controller_run T _) as [[v|e2]|]; simpl; lia.
Qed.

Lemma controller_run_raised_in_time (T d : nat) (e : exc) :
  d <= T -> isinstance_TimeoutError e = false ->
  controller_run T (mk_attempt (Some d) (Raised e)) = Some (Err e).
Proof.
  intros Hd Ht; unfold controller_run; cbn [att_time att_result].
  apply Nat.leb_le in Hd; rewrite Hd, Ht; reflexivity.
Qed.

Lemma no_retry_class_timeout (e : exc) :
  no_retry_class e = false -> isinstance_TimeoutError e = false.
Proof.
  unfold no_retry_class, isinstance_ValueError, isinstance_EnvironmentError,
    isinstance_RuntimeError, isinstance_TimeoutError.
  destruct (exc_cls e); cbn; congruence.
Qed.

(** X16. Every execution makes at most two provider calls. When the first
    call fails within the deadline with an exception that is not a
    [ValueError], an [OSError] (which includes the built-in [TimeoutError]
    and [ConnectionError]) or a [RuntimeError], and that the classifier
    deems transient, the same call is made exactly once more on the same
    deadline; a success then yields the normalised results after exactly
    two calls, and a failure (a timeout included) is raised wrapped in a
    message starting with "perplexity_search failed after retry: ". *)
Theorem X16_single_retry_on_transient :
  (forall (C : Type) query nr dom (factory : result C) (call : provider C) T,
     count_calls (run_trace (search_perplexity query nr dom factory call T)) <= 2)
  /\
  (forall (C : Type) query nr dom (c : C) (call : provider C) T q mr ds d0 e1,
     _validate_query query = Ok q ->
     _clamp_num_results nr = Ok mr ->
     _normalize_domains dom = Ok ds ->
     call c 0 (_call_search_args q mr ds) = mk_attempt (Some d0) (Raised e1) ->
     d0 <= T ->
     no_retry_class e1 = false ->
     _is_transient_error e1 = true ->
     let args := _call_search_args q mr ds in
     let r := search_perplexity query nr dom (Ok c) call T in
     run_trace r = [EvCreateClient; EvCall c args; EvCall c args]
     /\ count_calls (run_trace r) = 2
     /\ (forall d1 resp, call c 1 args = mk_attempt (Some d1) (Returned resp) ->
           d1 <= T -> run_result r = Some (Ok (_normalize_results resp)))
     /\ (forall e2, controller_run T (call c 1 args) = Some (Err e2) ->
           run_result r = Some (Err (wrap_after_retry e2))
           /\ String.prefix "perplexity_search failed after retry: "
                (exc_msg (wrap_after_retry e2)) = true)).
Proof.
  split.
  - intros; apply search_perplexity_calls_le_2.
  - intros C query nr dom c call T q mr ds d0 e1 Hq Hmr Hds Hcall Hd0 Hcls Htr.
    cbv zeta.
    assert (Hfirst : controller_run T (call c 0 (_call_search_args q mr ds))
                     = Some (Err e1)).
    { rewrite Hcall; apply controller_run_raised_in_time;
        [exact Hd0|apply no_retry_class_timeout, Hcls]. }
    unfold search_perplexity; rewrite Hq, Hmr, Hds, Hfirst, Hcls, Htr; simpl.
    unfold count_calls.
    split; [|split; [|split]].
    + destruct (controller_run T (call c 1 _)) as [[v|e2]|]; reflexivity.
    + destruct (controller_run T (call c 1 _)) as [[v|e2]|]; reflexivity.
    + intros d1 resp H1 Hd1; unfold controller_run at 1; rewrite H1; simpl.
      apply Nat.leb_le in Hd1; rewrite Hd1; reflexivity.
    + intros e2 H2; rewrite H2; split; [reflexivity|].
      simpl; destruct (exc_name e2 ++ _)%string; reflexivity.
Qed.

Lemma X16_witness :
  count_calls (run_trace (search_perplexity "retry me" (PyInt 3) None
     (Ok mk_Perplexity) (flaky_provider httpx_connect_error) 5000)) <= 2
  /\ run_result (search_perplexity "retry me" (PyInt 3) None
       (Ok mk_Perplexity) (flaky_provider httpx_connect_error) 5000)
     = Some (Ok (_normalize_results ok_response)).
Proof.
  split.
  - apply (proj1 X16_single_retry_on_transient).
  - destruct (proj2 X16_single_retry_on_transient Perplexity "retry me" (PyInt 3)
      None mk_Perplexity (flaky_provider httpx_connect_error) 5000
      "retry me" 3%Z None 10 httpx_connect_error
      eq_refl eq_refl eq_refl eq_refl ltac:(lia) eq_refl eq_refl)
      as [_ [_ [H _]]].
    apply (H 10 ok_response eq_refl); lia.
Defined.

(** C1 (code bug). A built-in [ConnectionRefusedError] on the first call
    is connectivity-class and deemed transient by the classifier, but it is
    an [OSError], so the guard meant for validation and auth errors
    re-raises it after a single call, though the second call would succeed:
    the documented single retry on transient connection errors does not
    happen. *)
Theorem C1_connection_refused_not_retried :
  _is_transient_error connection_refused = true
  /\ run_result (search_perplexity "retry me" (PyInt 3) None
       (Ok mk_Perplexity) (flaky_provider connection_refused) 5000)
     = Some (Err connection_refused)
  /\ count_calls (run_trace (search_perplexity "retry me" (PyInt 3) None
       (Ok mk_Perplexity) (flaky_provider connection_refused) 5000)) = 1.
Proof. vm_compute; repeat split. Qed.

(** ** Timeouts *)

Lemma prefix_app (n s : string) : String.prefix n (n ++ s) = true.
Proof.
  induction n as [|a n IH]; simpl.
  - destruct s; reflexivity.
  - destruct (ascii_dec a a) as [_|Hne]; [exact IH|congruence].
Qed.

Lemma contains_prefix (n h : string) :
  String.prefix n h = true -> contains n h = true.
Proof. intros H; destruct h; cbn [contains]; rewrite H; reflexivity. Qed.

Lemma contains_app (n p s : string) : contains n (p ++ n ++ s) = true.
Proof.
  induction p as [|a p IH].
  - change (contains n (n ++ s) = true); apply contains_prefix, prefix_app.
  - cbn [String.append contains]; destruct (String.prefix n (String a (p ++ n ++ s))); [reflexivity|exact IH].
Qed.

(** A first call that finishes after the deadline: a [TimeoutError] naming
    the deadline is raised, and there is no second call. *)
Lemma search_perplexity_timeout_finite {C : Type} query nr dom (c : C)
  (call : provider C) T q mr ds d0 res :
  _validate_query query = Ok q ->
  _clamp_num_results nr = Ok mr ->
  _normalize_domains dom = Ok ds ->
  call c 0 (_call_search_args q mr ds) = mk_attempt (Some d0) res ->
  T < d0 ->
  let r := search_perplexity query nr dom (Ok c) call T in
  run_result r = Some (Err (timeout_exc T))
  /\ count_calls (run_trace r) = 1
  /\ exc_cls (timeout_exc T) = TimeoutError
  /\ contains (nat_to_string T) (exc_msg (timeout_exc T)) = true.
Proof.
  intros Hq Hmr Hds Hcall Hd0; cbv zeta.
  assert (Hfirst : controller_run T (call c 0 (_call_search_args q mr ds))
                   = Some (Err (timeout_exc T))).
  { rewrite Hcall; unfold controller_run; simpl.
    destruct (Nat.leb_spec d0 T); [lia|reflexivity]. }
  unfold search_perplexity; rewrite Hq, Hmr, Hds, Hfirst.
  split; [reflexivity|]. split; [reflexivity|]. split; [reflexivity|].
  unfold timeout_exc; cbn [exc_msg]; apply contains_app.
Qed.

(** C2 (code bug). A first call that never finishes exceeds the deadline,
    yet [search_perplexity] never returns: [future.result] times out, but
    leaving the [with ThreadPoolExecutor(...)] block waits for the worker
    thread. *)
Theorem C2_hanging_call_never_times_out :
  run_result (search_perplexity "slow" (PyInt 3) None (Ok mk_Perplexity)
                hanging_provider 50) = None
  /\ count_calls (run_trace (search_perplexity "slow" (PyInt 3) None
                (Ok mk_Perplexity) hanging_provider 50)) = 1.
Proof. split; reflexivity. Qed.

(** ** The transient-failure classifier *)

Lemma any_in_spec (ks : list string) (s : string) :
  any_in ks s = true <-> exists k, In k ks /\ contains k s = true.
Proof. unfold any_in; apply existsb_exists. Qed.

Lemma lower_char_idem (c : ascii) : lower_char (lower_char c) = lower_char c.
Proof. destruct c as [[] [] [] [] [] [] [] []]; reflexivity. Qed.

Lemma lower_idem (s : string) : lower (lower s) = lower s.
Proof.
  induction s as [|c s IH]; simpl; [reflexivity|].
  rewrite lower_char_idem, IH; reflexivity.
Qed.

(** C3 (as amended). When [str(exc)] returns, the classifier returns a
    boolean (the one of [_is_transient_error]). It holds exactly when the
    exception is an httpx transport error ([TransportError],
    [ConnectError], [ConnectTimeout], [ReadTimeout]), or the lowercased
    class name contains one of "timeout", "connect", "network",
    "transport", or the lowercased message contains one of "timeout",
    "timed out", "connection", "transport", "temporarily unavailable",
    "try again". Its answer does not depend on the letter case of the name
    and message. When [str(exc)] raises, the classifier raises the same
    exception, unless the exception is an httpx transport error. *)
Theorem C3_transient_classifier (cls : exc_class) (name msg : string) (err : exc) :
  _is_transient_error_obj (mk_exc_obj cls name (Ok msg))
  = Ok (_is_transient_error (mk_exc cls name msg))
  /\ (_is_transient_error (mk_exc cls name msg) = true <->
     cls = HttpxTransportError
     \/ (exists k, In k ["timeout"; "connect"; "network"; "transport"]
                   /\ contains k (lower name) = true)
     \/ (exists k, In k ["timeout"; "timed out"; "connection"; "transport";
                         "temporarily unavailable"; "try again"]
                   /\ contains k (lower msg) = true))
  /\ _is_transient_error (mk_exc cls name msg)
     = _is_transient_error (mk_exc cls (lower name) (lower msg))
  /\ _is_transient_error_obj (mk_exc_obj cls name (Err err))
     = match cls with HttpxTransportError => Ok true | _ => Err err end.
Proof.
  split.
  { unfold _is_transient_error_obj, _is_transient_error, isinstance_httpx_transient.
    cbn [obj_cls obj_name obj_str exc_cls exc_name exc_msg].
    destruct cls; try reflexivity;
      destruct (any_in transient_name_keys (lower name)),
        (any_in transient_msg_keys (lower msg));
      reflexivity. }
  split; [|split; [|destruct cls; reflexivity]].
  - unfold _is_transient_error, isinstance_httpx_transient; cbn [exc_cls exc_name exc_msg].
    rewrite <- !(any_in_spec _ (lower _)).
    unfold transient_name_keys, transient_msg_keys.
    destruct cls;
      destruct (any_in _ (lower name)), (any_in _ (lower msg));
      intuition congruence.
  - unfold _is_transient_error; cbn [exc_cls exc_name exc_msg].
    rewrite !lower_idem; reflexivity.
Qed.

(** C3 fails as stated, twice. An exception named [NetworkError] with
    message "boom" is deemed transient, though it is no httpx transport
    error and neither its name nor its message contains any of the six
    keywords. And the classifier is not total: for an exception whose
    [__str__] raises, it raises, even when the class name carries a
    keyword. *)
Lemma C3_counterexample :
  _is_transient_error_obj broken_str_obj = Err broken_str_error
  /\ _is_transient_error network_error = true
  /\ exc_cls network_error <> HttpxTransportError
  /\ forallb (fun k => negb (contains k (lower (exc_name network_error)))
                       && negb (contains k (lower (exc_msg network_error))))
       ["timeout"; "timed out"; "connection"; "transport";
        "temporarily unavailable"; "try again"] = true.
Proof.
  split; [reflexivity|].
  split; [vm_compute; reflexivity|].
  split; [discriminate|vm_compute; reflexivity].
Qed.

(** ** Result normalisation *)

Lemma normalize_results_some (r : response) (l : list item) :
  resp_results r = Some l -> _normalize_results r = map normalize_item l.
Proof.
  intros H; unfold _normalize_results; rewrite H; destruct l; reflexivity.
Qed.

Lemma py_or_opt (t : option string) :
  py_str (py_or (opt_val t) (PyStr "")) = or_empty t.
Proof. destruct t as [[|c s]|]; reflexivity. Qed.

Lemma str_if_truthy_opt (t : option string) :
  (if truthy (opt_val t) then py_str (opt_val t) else "") = or_empty t.
Proof. destruct t as [[|c s]|]; reflexivity. Qed.

Lemma date_if_truthy_opt (d : option string) (s : string) :
  (if truthy (opt_val d) then Some (py_str (opt_val d)) else None) = Some s
  <-> d = Some s /\ s <> "".
Proof.
  destruct d as [[|c s']|]; cbn; split.
  - discriminate.
  - intros [H1 H2]; inversion H1; subst; congruence.
  - intros H; inversion H; subst; split; [reflexivity|discriminate].
  - intros [H1 _]; inversion H1; reflexivity.
  - discriminate.
  - intros [H1 _]; discriminate.
Qed.

(** C4. An absent or empty result collection gives the empty list. Each
    item gives one record, in order. For string-or-absent attributes, title,
    url and snippet are the string or "" when absent, last_update is the
    date string or "" when absent, and the date key is present exactly when
    the provider gave a non-empty date string. The spec's two-item example
    comes out as stated. *)
Theorem C4_normalize_results :
  (forall r, resp_results r = None \/ resp_results r = Some [] ->
     _normalize_results r = [])
  /\ (forall r l, resp_results r = Some l ->
        length (_normalize_results r) = length l
        /\ forall i it, nth_error l i = Some it ->
             nth_error (_normalize_results r) i = Some (normalize_item it))
  /\ (forall t u d sn : option string,
        let sr := normalize_item (mk_item (opt_val t) (opt_val u) (opt_val d)
                                          (opt_val sn)) in
        sr_title sr = or_empty t /\ sr_url sr = or_empty u
        /\ sr_snippet sr = or_empty sn /\ sr_last_update sr = or_empty d
        /\ (forall s, sr_date sr = Some s <-> d = Some s /\ s <> ""))
  /\ _normalize_results example_response
     = [mk_SearchResult "Title A" "https://a" (Some "2024-01-01") "2024-01-01"
          "Alpha snippet";
        mk_SearchResult "Title B" "https://b" None "" ""].
Proof.
  split; [|split; [|split]].
  - intros r [H|H]; unfold _normalize_results; rewrite H; reflexivity.
  - intros r l H; rewrite (normalize_results_some r l H); split.
    + apply length_map.
    + intros i it Hi; rewrite nth_error_map, Hi; reflexivity.
  - intros t u d sn; cbv zeta; unfold normalize_item.
    cbn [sr_title sr_url sr_date sr_last_update sr_snippet
         it_title it_url it_date it_snippet].
    rewrite !py_or_opt, !str_if_truthy_opt.
    split; [reflexivity|]; split; [reflexivity|]; split; [reflexivity|].
    split; [reflexivity|].
    apply date_if_truthy_opt.
  - reflexivity.
Qed.

Lemma C4_witness :
  _normalize_results (mk_response None) = []
  /\ length (_normalize_results example_response) = 2
  /\ nth_error (_normalize_results example_response) 1
     = Some (normalize_item (mk_item (PyStr "Title B") (PyStr "https://b") PyNone PyNone)).
Proof.
  destruct C4_normalize_results as [H1 [H2 _]].
  split; [apply H1; left; reflexivity|].
  destruct (H2 example_response _ eq_refl) as [Hl Hn].
  split; [exact Hl|].
  apply Hn; reflexivity.
Defined.

(** C10. A falsy attribute value ([None], "", [0], [False]) is treated as
    absent: title, url and snippet become "", and a falsy date leaves the
    date key out and makes last_update "", so such a date gives the same
    record as a missing one. *)
Theorem C10_falsy_fields_are_absent (it : item) :
  (truthy (it_title it) = false -> sr_title (normalize_item it) = "")
  /\ (truthy (it_url it) = false -> sr_url (normalize_item it) = "")
  /\ (truthy (it_snippet it) = false -> sr_snippet (normalize_item it) = "")
  /\ (truthy (it_date it) = false ->
        sr_date (normalize_item it) = None /\ sr_last_update (normalize_item it) = "")
  /\ (forall d, truthy d = false ->
        normalize_item (mk_item (it_title it) (it_url it) d (it_snippet it))
        = normalize_item (mk_item (it_title it) (it_url it) PyNone (it_snippet it))).
Proof.
  unfold normalize_item, py_or.
  split; [intros H; cbn; rewrite H; reflexivity|].
  split; [intros H; cbn; rewrite H; reflexivity|].
  split; [intros H; cbn; rewrite H; reflexivity|].
  split; [intros H; cbn; rewrite H; split; reflexivity|].
  intros d H; cbn; rewrite H; reflexivity.
Qed.

Lemma C10_witness :
  sr_title (normalize_item falsy_item) = ""
  /\ sr_url (normalize_item falsy_item) = ""
  /\ sr_snippet (normalize_item falsy_item) = ""
  /\ (sr_date (normalize_item falsy_item) = None
      /\ sr_last_update (normalize_item falsy_item) = "")
  /\ normalize_item (mk_item PyNone (PyStr "") (PyStr "") (PyStr ""))
     = normalize_item (mk_item PyNone (PyStr "") PyNone (PyStr "")).
Proof.
  destruct (C10_falsy_fields_are_absent falsy_item) as [Ht [Hu [Hs [Hd Hrep]]]].
  split; [apply Ht; reflexivity|].
  split; [apply Hu; reflexivity|].
  split; [apply Hs; reflexivity|].
  split; [apply Hd; reflexivity|].
  apply (Hrep (PyStr "")); reflexivity.
Defined.

(** ** Validation and configuration failures *)

(** C5. A first call failing with a [ValueError] (invalid input) or an
    [OSError]/[RuntimeError] (configuration) is not retried, whatever its
    name and message say: after that single call it is re-raised as it is.
    The one exception of these classes that is not re-raised as it is, is
    a [TimeoutError] (a timeout, not a configuration error): the controller
    replaces it with its own [TimeoutError]. Every such failure of
    [search_perplexity] reaches the caller of the [perplexity_search] tool
    unchanged. *)
Theorem C5_no_retry_and_unwrapped :
  (forall (C : Type) query nr dom (c : C) (call : provider C) T q mr ds d0 e,
     _validate_query query = Ok q ->
     _clamp_num_results nr = Ok mr ->
     _normalize_domains dom = Ok ds ->
     call c 0 (_call_search_args q mr ds) = mk_attempt (Some d0) (Raised e) ->
     d0 <= T ->
     no_retry_class e = true ->
     run_result (search_perplexity query nr dom (Ok c) call T)
     = Some (Err (if isinstance_TimeoutError e then timeout_exc T else e))
     /\ count_calls (run_trace (search_perplexity query nr dom (Ok c) call T)) = 1)
  /\
  (forall getenv query nr call e,
     run_result (search_perplexity_default getenv query nr None call) = Some (Err e) ->
     no_retry_class e = true ->
     perplexity_search getenv query nr call = Some (Err e)).
Proof.
  split.
  - intros C query nr dom c call T q mr ds d0 e Hq Hmr Hds Hcall Hd0 Hcls.
    assert (Hfirst : controller_run T (call c 0 (_call_search_args q mr ds))
                     = Some (Err (if isinstance_TimeoutError e then timeout_exc T else e))).
    { rewrite Hcall; unfold controller_run; cbn [att_time att_result].
      apply Nat.leb_le in Hd0; rewrite Hd0.
      destruct (isinstance_TimeoutError e); reflexivity. }
    unfold search_perplexity; rewrite Hq, Hmr, Hds, Hfirst.
    destruct (isinstance_TimeoutError e); [|rewrite Hcls]; split; reflexivity.
  - intros getenv query nr call e Hr Hcls.
    unfold perplexity_search; rewrite Hr.
    unfold no_retry_class in Hcls.
    destruct (isinstance_ValueError e); [reflexivity|].
    destruct (isinstance_EnvironmentError e), (isinstance_RuntimeError e);
      cbn in *; [reflexivity..|discriminate].
Qed.

Lemma C5_witness :
  _is_transient_error value_error_timed_out = true
  /\ run_result (search_perplexity_default (fun _ => Some "key") "hello"
        (PyInt 5) None (flaky_provider value_error_timed_out))
     = Some (Err value_error_timed_out)
  /\ count_calls (run_trace (search_perplexity_default (fun _ => Some "key")
        "hello" (PyInt 5) None (flaky_provider value_error_timed_out))) = 1
  /\ perplexity_search (fun _ => Some "key") "hello" (PyInt 5)
        (flaky_provider value_error_timed_out) = Some (Err value_error_timed_out).
Proof.
  destruct C5_no_retry_and_unwrapped as [H1 H2].
  destruct (H1 Perplexity "hello" (PyInt 5) None mk_Perplexity
              (flaky_provider value_error_timed_out) 5000 "hello" 5%Z None 10
              value_error_timed_out eq_refl eq_refl eq_refl eq_refl ltac:(lia)
              eq_refl) as [Hr Hc].
  split; [vm_compute; reflexivity|].
  split; [exact Hr|]. split; [exact Hc|].
  apply H2; [exact Hr|reflexivity].
Defined.

(** ** Query validation *)

Lemma lstrip_all_space (l : list ascii) :
  forallb py_isspace l = true -> lstrip (string_of_list_ascii l) = "".
Proof.
  induction l as [|c l IH]; simpl; [reflexivity|].
  intros H; apply andb_true_iff in H as [Hc Hl].
  rewrite Hc; apply IH, Hl.
Qed.

Lemma forallb_rev_true {A : Type} (f : A -> bool) (l : list A) :
  forallb f l = true -> forallb f (rev l) = true.
Proof.
  rewrite !forallb_forall; intros H x Hx; apply H, in_rev, Hx.
Qed.

(** A whitespace-only string (the empty string included) strips to "". *)
Lemma strip_all_space (s : string) :
  forallb py_isspace (list_ascii_of_string s) = true -> strip s = "".
Proof.
  intros H; unfold strip, rstrip.
  rewrite (lstrip_all_space _ (forallb_rev_true _ _ H)); reflexivity.
Qed.

(** C6 (as amended). A whitespace-only (or empty) query is rejected with a
    [ValueError]; so is a query whose trimmed form is longer than 4096
    characters; every other query is accepted in its trimmed form. *)
Theorem C6_validate_query (query : string) :
  (forallb py_isspace (list_ascii_of_string query) = true ->
     exists m, _validate_query query = Err (value_error m))
  /\ (4096 < String.length (strip query) ->
        exists m, _validate_query query = Err (value_error m))
  /\ (strip query <> "" -> String.length (strip query) <= 4096 ->
        _validate_query query = Ok (strip query)).
Proof.
  unfold _validate_query.
  split; [|split].
  - intros H; rewrite (strip_all_space _ H); eexists; reflexivity.
  - intros H; destruct (String.eqb_spec (strip query) "").
    + eexists; reflexivity.
    + apply Nat.ltb_lt in H; rewrite H; eexists; reflexivity.
  - intros Hne Hle; destruct (String.eqb_spec (strip query) ""); [contradiction|].
    apply Nat.ltb_ge in Hle; rewrite Hle; reflexivity.
Qed.

Lemma C6_witness :
  (exists m, _validate_query "  " = Err (value_error m))
  /\ (exists m, _validate_query (repeat_char 4097 "x") = Err (value_error m))
  /\ _validate_query "  hi " = Ok "hi".
Proof.
  split; [apply (proj1 (C6_validate_query "  ")); reflexivity|].
  split; [apply (proj1 (proj2 (C6_validate_query (repeat_char 4097 "x"))));
          vm_compute; lia|].
  apply (proj2 (proj2 (C6_validate_query "  hi "))); vm_compute;
    [discriminate|lia].
Defined.

(** C6 fails as stated: a query of 4097 characters whose last one is a
    space is accepted, trimmed to 4096 characters. *)
Lemma C6_counterexample_padded_long_query :
  String.length (repeat_char 4096 "x" ++ " ") = 4097
  /\ _validate_query (repeat_char 4096 "x" ++ " ") = Ok (repeat_char 4096 "x").
Proof. split; vm_compute; reflexivity. Qed.

(** ** Host filter normalisation *)

Lemma lstrip_app_last (l : list ascii) (c : ascii) :
  py_isspace c = false ->
  exists y, list_ascii_of_string (lstrip (string_of_list_ascii (l ++ [c])%list)) = (y ++ [c])%list.
Proof.
  intros Hc; induction l as [|x l IH]; simpl.
  - rewrite Hc; exists []; reflexivity.
  - destruct (py_isspace x); [exact IH|].
    exists (x :: l); simpl; rewrite list_ascii_of_string_of_list_ascii; reflexivity.
Qed.

Lemma lstrip_head (s : string) :
  lstrip s = "" \/ exists c r, lstrip s = String c r /\ py_isspace c = false.
Proof.
  induction s as [|c s IH]; simpl; [left; reflexivity|].
  case_eq (py_isspace c); intros Hc; [exact IH|].
  right; exists c, s; split; [reflexivity|exact Hc].
Qed.

(** [str.strip()] leaves no whitespace at the end. *)
Lemma strip_last (s : string) :
  strip s = "" \/
  exists y c, list_ascii_of_string (strip s) = (y ++ [c])%list /\ py_isspace c = false.
Proof.
  unfold strip, rstrip.
  destruct (lstrip_head (string_of_list_ascii (rev (list_ascii_of_string s))))
    as [H|[c [r [H Hc]]]]; rewrite H.
  - left; reflexivity.
  - right; simpl.
    destruct (lstrip_app_last (rev (list_ascii_of_string r)) c Hc) as [y Hy].
    exists y, c; split; [exact Hy|exact Hc].
Qed.

Lemma lower_char_newline (c : ascii) : lower_char c = "010"%char -> c = "010"%char.
Proof.
  destruct c as [[] [] [] [] [] [] [] []]; intros H; vm_compute in H;
    first [reflexivity | discriminate H].
Qed.

Lemma list_lower (s : string) :
  list_ascii_of_string (lower s) = map lower_char (list_ascii_of_string s).
Proof. induction s as [|c s IH]; simpl; [reflexivity|rewrite IH; reflexivity]. Qed.

(** On a normalised entry the regex's end anchor cannot match before a
    final newline. *)
Lemma regex_on_norm (raw : string) :
  _HOSTNAME_REGEX_match (norm_domain raw)
  = hostname_chars (list_ascii_of_string (norm_domain raw)).
Proof.
  unfold _HOSTNAME_REGEX_match, norm_domain; rewrite list_lower.
  destruct (strip_last raw) as [H|[y [c [H Hc]]]].
  - rewrite H; reflexivity.
  - rewrite H, map_app, rev_app_distr; cbn [map rev app].
    case_eq (Ascii.eqb (lower_char c) "010"); intros Heq.
    + apply Ascii.eqb_eq, lower_char_newline in Heq; subst c; discriminate.
    + rewrite orb_false_r; reflexivity.
Qed.

Lemma normalize_domains_loop_step (raw : string) (rest seen acc : list string) :
  (exists m, normalize_domains_loop (raw :: rest) seen acc = Err (value_error m))
  \/ exists seen' acc',
       normalize_domains_loop (raw :: rest) seen acc
       = normalize_domains_loop rest seen' acc'.
Proof.
  cbn [normalize_domains_loop].
  repeat match goal with
         | |- context [if ?b then _ else _] => destruct b
         end; eauto.
Qed.

Lemma normalize_domains_loop_bad_head (raw : string) (rest seen acc : list string) :
  bad_domain (norm_domain raw) = true ->
  exists m, normalize_domains_loop (raw :: rest) seen acc = Err (value_error m).
Proof.
  cbn [normalize_domains_loop].
  change (lower (strip raw)) with (norm_domain raw).
  rewrite regex_on_norm.
  destruct (norm_domain raw) as [|c d]; [intros _; eexists; reflexivity|].
  unfold bad_domain, any_in; cbn [existsb list_ascii_of_string hostname_chars].
  intros H.
  destruct (String.eqb (String c d) ""); [eexists; reflexivity|].
  destruct (contains "://" (String c d)); [eexists; reflexivity|].
  destruct (contains "/" (String c d)); [eexists; reflexivity|].
  destruct (contains " " (String c d)); [eexists; reflexivity|].
  destruct (253 <? String.length (String c d)); [eexists; reflexivity|].
  destruct (forallb hostname_char (c :: list_ascii_of_string d));
    [discriminate H|eexists; reflexivity].
Qed.

Lemma normalize_domains_loop_bad (l : list string) (raw : string) :
  In raw l -> bad_domain (norm_domain raw) = true ->
  forall seen acc, exists m, normalize_domains_loop l seen acc = Err (value_error m).
Proof.
  intros Hin Hbad; induction l as [|x l IH]; [destruct Hin|].
  intros seen acc; destruct Hin as [Hx|Hin].
  - subst x; apply normalize_domains_loop_bad_head, Hbad.
  - destruct (normalize_domains_loop_step x l seen acc) as [H|[seen' [acc' H]]];
      [exact H|rewrite H; apply IH, Hin].
Qed.

Lemma filter_remove (f : string -> bool) (d : string) (D : list string) :
  filter f (remove string_dec d D) = filter (fun x => f x && negb (String.eqb x d)) D.
Proof.
  induction D as [|y D IH]; simpl; [reflexivity|].
  destruct (string_dec d y) as [<-|Hne].
  - rewrite String.eqb_refl, andb_false_r; exact IH.
  - assert (Hf : String.eqb y d = false) by (apply String.eqb_neq; congruence).
    rewrite Hf, andb_true_r; cbn [filter]; destruct (f y); rewrite IH; reflexivity.
Qed.

Lemma normalize_domains_loop_good (l seen acc : list string) :
  forallb (fun raw => negb (bad_domain (norm_domain raw))) l = true ->
  normalize_domains_loop l seen acc
  = Ok (acc ++ filter (not_seen seen) (dedup_first (map norm_domain l)))%list.
Proof.
  revert seen acc; induction l as [|raw l IH]; intros seen acc Hgood.
  - simpl; rewrite app_nil_r; reflexivity.
  - cbn [forallb] in Hgood; apply andb_true_iff in Hgood as [Hraw Hrest].
    cbn [normalize_domains_loop map dedup_first].
    change (lower (strip raw)) with (norm_domain raw).
    rewrite regex_on_norm.
    revert Hraw; generalize (norm_domain raw) as d; intros d Hraw.
    assert (Hchecks : String.eqb d "" = false /\ any_in ["://"; "/"; " "] d = false
                      /\ (253 <? String.length d) = false
                      /\ hostname_chars (list_ascii_of_string d) = true).
    { unfold bad_domain in Hraw; unfold any_in; cbn [existsb].
      destruct d as [|c d']; [discriminate Hraw|].
      cbn [list_ascii_of_string hostname_chars].
      destruct (String.eqb _ ""), (contains "://" _), (contains "/" _),
               (contains " " _), (253 <? _), (forallb hostname_char _);
        try discriminate Hraw; repeat split; reflexivity. }
    destruct Hchecks as [H1 [H2 [H3 H4]]]; rewrite H1, H2, H3, H4; cbn [negb].
    set (D := dedup_first (map norm_domain l)).
    cbn [filter]; unfold not_seen at 1.
    case_eq (existsb (String.eqb d) seen); intros Hd; cbn [negb].
    + rewrite (IH _ _ Hrest), filter_remove; f_equal; f_equal.
      apply filter_ext; intros x; unfold not_seen.
      destruct (String.eqb_spec x d) as [->|Hne]; [rewrite Hd; reflexivity|].
      rewrite andb_true_r; reflexivity.
    + rewrite (IH _ _ Hrest), filter_remove, <- app_assoc; cbn [app].
      f_equal; f_equal; f_equal.
      apply filter_ext; intros x; unfold not_seen; cbn [existsb].
      rewrite negb_orb, andb_comm; reflexivity.
Qed.

Lemma filter_not_seen_nil (D : list string) : filter (not_seen []) D = D.
Proof. induction D as [|x D IH]; simpl; [reflexivity|rewrite IH; reflexivity]. Qed.

(** C7 (as amended). Each entry is stripped of surrounding whitespace and
    lowercased before it is checked. An empty filter is rejected. An entry
    whose stripped, lowercased form is empty, contains "://", "/" or a
    space, is longer than 253 characters, or has a character outside
    [a-z0-9.-] makes the whole request fail with a [ValueError], whatever
    the other entries. A non-empty filter of valid entries gives the
    normalised entries with later duplicates removed, in order of first
    occurrence. An accepted filter is never empty. The spec's two examples
    come out as stated. *)
Theorem C7_normalize_domains :
  (exists m, _normalize_domains (Some []) = Err (value_error m))
  /\ (forall l raw, In raw l -> bad_domain (norm_domain raw) = true ->
        exists m, _normalize_domains (Some l) = Err (value_error m))
  /\ (forall l, l <> [] ->
        forallb (fun raw => negb (bad_domain (norm_domain raw))) l = true ->
        _normalize_domains (Some l) = Ok (Some (dedup_first (map norm_domain l))))
  /\ (forall l r, _normalize_domains (Some l) = Ok r ->
        exists n, r = Some n /\ n <> [])
  /\ _normalize_domains (Some ["Example.com"; "example.com"; "sub.domain.com"])
     = Ok (Some ["example.com"; "sub.domain.com"])
  /\ (exists m, _normalize_domains (Some ["good.com"; "bad.com/path"])
                = Err (value_error m)).
Proof.
  split; [eexists; reflexivity|].
  split; [|split; [|split; [|split]]].
  - intros l raw Hin Hbad.
    destruct l as [|x l]; [destruct Hin|].
    destruct (normalize_domains_loop_bad (x :: l) raw Hin Hbad [] []) as [m Hm].
    exists m; unfold _normalize_domains; rewrite Hm; reflexivity.
  - intros l Hne Hgood.
    destruct l as [|x l]; [contradiction|].
    unfold _normalize_domains.
    rewrite (normalize_domains_loop_good _ [] [] Hgood), filter_not_seen_nil.
    reflexivity.
  - intros l r H; unfold _normalize_domains in H.
    destruct l as [|x l]; [discriminate|].
    destruct (normalize_domains_loop (x :: l) [] []) as [[|y n]|e];
      try discriminate.
    injection H as <-; exists (y :: n); split; [reflexivity|discriminate].
  - vm_compute; reflexivity.
  - eexists; vm_compute; reflexivity.
Qed.

Lemma C7_witness :
  (exists m, _normalize_domains (Some [" a.com"; "B.org/x"]) = Err (value_error m))
  /\ _normalize_domains (Some ["A.com"; "b.org"; "a.com"])
     = Ok (Some (dedup_first (map norm_domain ["A.com"; "b.org"; "a.com"])))
  /\ (exists n, Some ["a.com"] = Some n /\ n <> []).
Proof.
  destruct C7_normalize_domains as [_ [Hbad [Hgood [Hne _]]]].
  split; [apply (Hbad _ "B.org/x"); [right; left; reflexivity|vm_compute; reflexivity]|].
  split; [apply Hgood; [discriminate|vm_compute; reflexivity]|].
  apply (Hne [" a.com"]); vm_compute; reflexivity.
Defined.

(** C7 fails as stated: the entry " Example.com" contains a space yet is
    accepted, because the entry is stripped before it is checked. *)
Lemma C7_counterexample_padded_entry :
  contains " " " Example.com" = true
  /\ _normalize_domains (Some [" Example.com"]) = Ok (Some ["example.com"]).
Proof. split; vm_compute; reflexivity. Qed.

(** ** Result cap, client construction and call arguments *)

Lemma validate_query_ok (query q : string) :
  _validate_query query = Ok q -> q = strip query.
Proof.
  unfold _validate_query.
  destruct (String.eqb (strip query) ""); [discriminate|].
  destruct (4096 <? String.length (strip query)); [discriminate|].
  intros H; injection H as <-; reflexivity.
Qed.

(** After the inputs are validated and the client made, the request is a
    client creation followed by one or two identical calls. *)
Lemma search_perplexity_trace {C : Type} query nr dom (c : C) (call : provider C)
  T q mr ds :
  _validate_query query = Ok q ->
  _clamp_num_results nr = Ok mr ->
  _normalize_domains dom = Ok ds ->
  exists n, 1 <= n <= 2
  /\ run_trace (search_perplexity query nr dom (Ok c) call T)
     = EvCreateClient :: repeat (EvCall c (_call_search_args q mr ds)) n.
Proof.
  intros Hq Hmr Hds; unfold search_perplexity; rewrite Hq, Hmr, Hds.
  destruct (controller_run T (call c 0 _)) as [[v|e1]|];
    [exists 1; split; [lia|reflexivity]| |exists 1; split; [lia|reflexivity]].
  destruct (no_retry_class e1); [exists 1; split; [lia|reflexivity]|].
  destruct (_is_transient_error e1); [|exists 1; split; [lia|reflexivity]].
  exists 2; split; [lia|].
  destruct (controller_run T (call c 1 _)) as [[v|e2]|]; reflexivity.
Qed.

Lemma search_perplexity_first_call {C : Type} query nr (c : C) (call : provider C)
  T q mr :
  _validate_query query = Ok q ->
  _clamp_num_results nr = Ok mr ->
  nth_error (run_trace (search_perplexity query nr None (Ok c) call T)) 1
  = Some (EvCall c (mk_call_args q mr None)).
Proof.
  intros Hq Hmr.
  destruct (search_perplexity_trace query nr None c call T q mr None Hq Hmr eq_refl)
    as [n [Hn Htr]].
  rewrite Htr; destruct n as [|n]; [lia|reflexivity].
Qed.

(** C8. An absent cap gives 10, a cap below 1 gives 1, a cap above 30 gives
    30 and a cap in [1, 30] is kept; a present cap fails (with a
    [ValueError]) exactly when [int()] cannot convert it. In every request
    with a valid query and host filter, every provider call gets the
    clamped cap (and there is a first call); so for an absent cap, 0 and
    99 the provider is called with 10, 1 and 30. *)
Theorem C8_clamp_num_results :
  _clamp_num_results PyNone = Ok 10%Z
  /\ (forall v z, v <> PyNone -> py_int v = Some z ->
        ((z < 1)%Z -> _clamp_num_results v = Ok 1%Z)
        /\ ((30 < z)%Z -> _clamp_num_results v = Ok 30%Z)
        /\ ((1 <= z <= 30)%Z -> _clamp_num_results v = Ok z))
  /\ (forall v, v <> PyNone ->
        ((exists m, _clamp_num_results v = Err (value_error m)) <-> py_int v = None))
  /\ (forall (C : Type) query dom (c : C) (call : provider C) T q ds,
        _validate_query query = Ok q ->
        _normalize_domains dom = Ok ds ->
        (forall nr m, _clamp_num_results nr = Ok m ->
           nth_error (run_trace (search_perplexity query nr dom (Ok c) call T)) 1
           = Some (EvCall c (_call_search_args q m ds))
           /\ ca_max_results (_call_search_args q m ds) = m
           /\ (forall c' a, In (EvCall c' a) (run_trace (search_perplexity query nr dom (Ok c) call T)) ->
                ca_max_results a = m))
        /\ (forall nr m, In (nr, m) [(PyNone, 10%Z); (PyInt 0, 1%Z); (PyInt 99, 30%Z)] ->
           nth_error (run_trace (search_perplexity query nr dom (Ok c) call T)) 1
           = Some (EvCall c (_call_search_args q m ds))
           /\ ca_max_results (_call_search_args q m ds) = m
           /\ (forall c' a, In (EvCall c' a) (run_trace (search_perplexity query nr dom (Ok c) call T)) ->
                ca_max_results a = m))).
Proof.
  split; [reflexivity|].
  split; [|split].
  - intros v z Hv Hz; unfold _clamp_num_results.
    destruct v; [contradiction| | |]; rewrite Hz; unfold _MIN_RESULTS, _MAX_RESULTS.
    all: split; [|split]; intros H.
    all: repeat match goal with
                | |- context [Z.ltb ?a ?b] =>
                    destruct (Z.ltb_spec a b); try lia
                end; reflexivity.
  - intros v Hv; unfold _clamp_num_results.
    destruct v; [contradiction| | |];
      (destruct (py_int _) as [w|];
       [split; [intros [m Hm]|discriminate];
        destruct (w <? _MIN_RESULTS)%Z, (_MAX_RESULTS <? w)%Z; discriminate
       |split; [reflexivity|intros _; eexists; reflexivity]]).
  - intros C query dom c call T q ds Hq Hds.
    assert (G : forall nr m, _clamp_num_results nr = Ok m ->
           nth_error (run_trace (search_perplexity query nr dom (Ok c) call T)) 1
           = Some (EvCall c (_call_search_args q m ds))
           /\ ca_max_results (_call_search_args q m ds) = m
           /\ (forall c' a, In (EvCall c' a) (run_trace (search_perplexity query nr dom (Ok c) call T)) ->
                ca_max_results a = m)).
    { intros nr m Hmr.
      destruct (search_perplexity_trace query nr dom c call T q m ds Hq Hmr Hds)
        as [n [Hn Htr]].
      rewrite Htr; split; [|split].
      - destruct n as [|n]; [lia|reflexivity].
      - destruct ds as [[|x l]|]; reflexivity.
      - intros c' a [H|H]; [discriminate|].
        apply repeat_spec in H; injection H as _ ->.
        destruct ds as [[|x l]|]; reflexivity. }
    split; [exact G|].
    intros nr m Hin; apply G.
    cbn [In] in Hin; destruct Hin as [H|[H|[H|[]]]]; injection H as <- <-; reflexivity.
Qed.

Lemma C8_witness :
  ((PyStr " 42 " <> PyNone /\ py_int (PyStr " 42 ") = Some 42%Z)
   /\ _clamp_num_results (PyStr " 42 ") = Ok 30%Z)
  /\ (exists m, _clamp_num_results (PyStr "ten") = Err (value_error m))
  /\ (_validate_query " news " = Ok "news"
      /\ _normalize_domains (Some ["A.com"]) = Ok (Some ["a.com"])
      /\ nth_error (run_trace (search_perplexity " news " (PyInt 0) (Some ["A.com"])
           (Ok mk_Perplexity) (flaky_provider httpx_connect_error) 5000)) 1
         = Some (EvCall mk_Perplexity (_call_search_args "news" 1 (Some ["a.com"])))
      /\ ca_max_results (_call_search_args "news" 1 (Some ["a.com"])) = 1%Z
      /\ (forall c' a, In (EvCall c' a) (run_trace (search_perplexity " news " (PyInt 0)
              (Some ["A.com"]) (Ok mk_Perplexity) (flaky_provider httpx_connect_error) 5000)) ->
           ca_max_results a = 1%Z)).
Proof.
  destruct C8_clamp_num_results as [_ [Hz [Hn H4]]].
  split; [|split].
  3: { assert (Hq : _validate_query " news " = Ok "news") by reflexivity.
       assert (Hds : _normalize_domains (Some ["A.com"]) = Ok (Some ["a.com"]))
         by (vm_compute; reflexivity).
       split; [exact Hq|split; [exact Hds|]].
       apply (proj2 (H4 Perplexity " news " (Some ["A.com"]) mk_Perplexity
                (flaky_provider httpx_connect_error) 5000 "news" (Some ["a.com"]) Hq Hds)).
       cbn [In]; right; left; reflexivity. }
  - split; [split; [discriminate|reflexivity]|].
    apply (Hz (PyStr " 42 ") 42%Z); [discriminate|reflexivity|lia].
  - apply (Hn (PyStr "ten")); [discriminate|reflexivity].
Defined.

(** C9. The client factory is called only once the inputs are valid: a
    rejected input makes no client and no call. Once they are valid, the
    request is one client creation followed by one or two calls, all with
    that client and the same normalised arguments (trimmed query, clamped
    cap, normalised filter). With [_create_client], an unset, empty or
    whitespace-only [PERPLEXITY_API_KEY] makes the request fail with an
    [OSError] and no call. *)
Theorem C9_client_once_same_inputs :
  (forall (C : Type) query nr dom (factory : result C) (call : provider C) T,
     (exists e, _validate_query query = Err e)
     \/ (exists e, _clamp_num_results nr = Err e)
     \/ (exists e, _normalize_domains dom = Err e) ->
     run_trace (search_perplexity query nr dom factory call T) = [])
  /\
  (forall (C : Type) query nr dom (c : C) (call : provider C) T q mr ds,
     _validate_query query = Ok q ->
     _clamp_num_results nr = Ok mr ->
     _normalize_domains dom = Ok ds ->
     exists n, 1 <= n <= 2
     /\ count_creates (run_trace (search_perplexity query nr dom (Ok c) call T)) = 1
     /\ run_trace (search_perplexity query nr dom (Ok c) call T)
        = EvCreateClient
          :: repeat (EvCall c (_call_search_args (strip query) mr ds)) n)
  /\
  (forall getenv query nr dom (call : provider Perplexity) q mr ds,
     _validate_query query = Ok q ->
     _clamp_num_results nr = Ok mr ->
     _normalize_domains dom = Ok ds ->
     (getenv "PERPLEXITY_API_KEY" = None
      \/ exists s, getenv "PERPLEXITY_API_KEY" = Some s
                   /\ forallb py_isspace (list_ascii_of_string s) = true) ->
     exists e, run_result (search_perplexity_default getenv query nr dom call)
               = Some (Err e)
     /\ isinstance_EnvironmentError e = true
     /\ run_trace (search_perplexity_default getenv query nr dom call)
        = [EvCreateClient]).
Proof.
  split; [|split].
  - intros C query nr dom factory call T [[e H]|[[e H]|[e H]]];
      unfold search_perplexity.
    + rewrite H; reflexivity.
    + destruct (_validate_query query); [rewrite H|]; reflexivity.
    + destruct (_validate_query query); [|reflexivity].
      destruct (_clamp_num_results nr); [rewrite H|]; reflexivity.
  - intros C query nr dom c call T q mr ds Hq Hmr Hds.
    destruct (search_perplexity_trace query nr dom c call T q mr ds Hq Hmr Hds)
      as [n [Hn Htr]].
    rewrite <- (validate_query_ok _ _ Hq).
    exists n; split; [exact Hn|]; split; [|exact Htr].
    rewrite Htr; unfold count_creates; cbn [filter length].
    f_equal; clear Hn Htr; induction n as [|n IH]; [reflexivity|cbn; exact IH].
  - intros getenv query nr dom call q mr ds Hq Hmr Hds Hkey.
    assert (Hc : _create_client getenv
                 = Err (mk_exc OSError "OSError"
                          "PERPLEXITY_API_KEY is required but missing or empty")).
    { unfold _create_client.
      destruct Hkey as [H|[s [H Hs]]]; rewrite H; [reflexivity|].
      rewrite (strip_all_space s Hs); reflexivity. }
    unfold search_perplexity_default, search_perplexity; rewrite Hq, Hmr, Hds, Hc.
    eexists; split; [reflexivity|split; reflexivity].
Qed.

Lemma C9_witness :
  run_trace (search_perplexity "   " PyNone None (Ok mk_Perplexity)
               (flaky_provider httpx_connect_error) 5000) = []
  /\ (exists n, 1 <= n <= 2
      /\ count_creates (run_trace (search_perplexity " retry me " (PyInt 99) None
            (Ok mk_Perplexity) (flaky_provider httpx_connect_error) 5000)) = 1
      /\ run_trace (search_perplexity " retry me " (PyInt 99) None (Ok mk_Perplexity)
            (flaky_provider httpx_connect_error) 5000)
         = EvCreateClient
           :: repeat (EvCall mk_Perplexity
                (_call_search_args (strip " retry me ") 30 None)) n)
  /\ (exists e, run_result (search_perplexity_default (fun _ => Some " ")
                  "hello" PyNone None (flaky_provider httpx_connect_error))
                = Some (Err e)
      /\ isinstance_EnvironmentError e = true
      /\ run_trace (search_perplexity_default (fun _ => Some " ")
                  "hello" PyNone None (flaky_provider httpx_connect_error))
         = [EvCreateClient]).
Proof.
  destruct C9_client_once_same_inputs as [H1 [H2 H3]].
  split; [apply H1; left; eexists; reflexivity|].
  split; [apply (H2 _ _ _ _ _ _ _ "retry me" 30%Z None); reflexivity|].
  apply (H3 _ _ _ _ _ "hello" 10%Z None); try reflexivity.
  right; exists " "; split; reflexivity.
Defined.

(** * Further properties of the adapter and the server *)

(** ** Host filter: what normalisation produces *)

Lemma normalize_domains_loop_inv (l seen acc n : list string) :
  normalize_domains_loop l seen acc = Ok n ->
  (forall x, In x acc -> In x seen) -> NoDup acc ->
  Forall (fun d => hostname_chars (list_ascii_of_string d) = true
                   /\ String.length d <= 253) acc ->
  NoDup n
  /\ Forall (fun d => hostname_chars (list_ascii_of_string d) = true
                      /\ String.length d <= 253) n.
Proof.
  revert seen acc; induction l as [|raw l IH]; intros seen acc Hl Hsub Hnd Hall.
  - injection Hl as <-; split; assumption.
  - cbn [normalize_domains_loop] in Hl.
    change (lower (strip raw)) with (norm_domain raw) in Hl.
    rewrite regex_on_norm in Hl.
    revert Hl; generalize (norm_domain raw) as d; intros d Hl.
    destruct (String.eqb d ""); [discriminate|].
    destruct (any_in _ d); [discriminate|].
    case_eq (253 <? String.length d); intros Hlen; rewrite Hlen in Hl; [discriminate|].
    case_eq (hostname_chars (list_ascii_of_string d)); intros Hh;
      rewrite Hh in Hl; [|discriminate]; cbn [negb] in Hl.
    case_eq (existsb (String.eqb d) seen); intros Hs; rewrite Hs in Hl.
    + exact (IH _ _ Hl Hsub Hnd Hall).
    + apply (IH _ _ Hl).
      * intros x Hx; apply in_app_or in Hx as [Hx|[<-|[]]];
          [right; apply Hsub, Hx|left; reflexivity].
      * apply (Permutation_NoDup (Permutation_cons_append acc d)).
        constructor; [|exact Hnd].
        intros Hin; apply Hsub in Hin.
        assert (Hex : existsb (String.eqb d) seen = true)
          by (apply existsb_exists; exists d; split; [exact Hin|apply String.eqb_refl]).
        congruence.
      * apply Forall_app; split; [exact Hall|].
        constructor; [|constructor].
        split; [exact Hh|apply Nat.ltb_ge, Hlen].
Qed.

Lemma normalize_domains_wellformed (l n : list string) :
  _normalize_domains (Some l) = Ok (Some n) ->
  n <> [] /\ NoDup n
  /\ Forall (fun d => hostname_chars (list_ascii_of_string d) = true
                      /\ String.length d <= 253) n.
Proof.
  unfold _normalize_domains; destruct l as [|x l]; [discriminate|].
  case_eq (normalize_domains_loop (x :: l) [] []); [|discriminate].
  intros [|y m] Hloop H; [discriminate|].
  injection H as <-.
  destruct (normalize_domains_loop_inv _ _ _ _ Hloop) as [Hnd Hall];
    [intros ? []|constructor|constructor|].
  split; [discriminate|split; assumption].
Qed.

(** X1. An accepted host filter is a non-empty list of distinct entries,
    each non-empty, of at most 253 characters, all in [a-z0-9.-]. *)
Theorem X1_normalized_filter_wellformed (l n : list string) :
  _normalize_domains (Some l) = Ok (Some n) ->
  n <> [] /\ NoDup n
  /\ Forall (fun d => hostname_chars (list_ascii_of_string d) = true
                      /\ String.length d <= 253) n.
Proof. apply normalize_domains_wellformed. Qed.

Lemma X1_witness :
  ["a.com"; "b-2.org"] <> [] /\ NoDup ["a.com"; "b-2.org"]
  /\ Forall (fun d => hostname_chars (list_ascii_of_string d) = true
                      /\ String.length d <= 253) ["a.com"; "b-2.org"].
Proof.
  apply (X1_normalized_filter_wellformed [" A.com"; "b-2.org"; "a.COM "]).
  vm_compute; reflexivity.
Defined.

Lemma hostname_char_facts (c : ascii) :
  hostname_char c = true -> lower_char c = c /\ py_isspace c = false.
Proof.
  destruct c as [[] [] [] [] [] [] [] []]; intros H; vm_compute in H;
    try discriminate H; split; reflexivity.
Qed.

Lemma contains_non_host (c : ascii) (r d : string) :
  hostname_char c = false -> forallb hostname_char (list_ascii_of_string d) = true ->
  contains (String c r) d = false.
Proof.
  intros Hc; induction d as [|c' d IH]; intros Hd; [reflexivity|].
  cbn [list_ascii_of_string forallb] in Hd; apply andb_true_iff in Hd as [Hc' Hd].
  cbn [contains String.prefix].
  destruct (ascii_dec c c') as [->|_]; [congruence|exact (IH Hd)].
Qed.

Lemma lstrip_no_space (t : string) :
  forallb (fun c => negb (py_isspace c)) (list_ascii_of_string t) = true ->
  lstrip t = t.
Proof.
  destruct t as [|c t]; [reflexivity|]; cbn.
  intros H; apply andb_true_iff in H as [Hc _].
  destruct (py_isspace c); [discriminate|reflexivity].
Qed.

Lemma strip_no_space (t : string) :
  forallb (fun c => negb (py_isspace c)) (list_ascii_of_string t) = true ->
  strip t = t.
Proof.
  intros H; unfold strip, rstrip.
  rewrite (lstrip_no_space (string_of_list_ascii (rev (list_ascii_of_string t))));
    [|rewrite list_ascii_of_string_of_list_ascii; apply forallb_rev_true, H].
  rewrite list_ascii_of_string_of_list_ascii, rev_involutive,
    string_of_list_ascii_of_string.
  apply lstrip_no_space, H.
Qed.

(** A well-formed entry is left as it is by [strip().lower()] and passes
    every check. *)
Lemma host_entry_fixed (d : string) :
  hostname_chars (list_ascii_of_string d) = true -> String.length d <= 253 ->
  norm_domain d = d /\ bad_domain d = false.
Proof.
  intros Hh Hlen.
  assert (Hall : forallb hostname_char (list_ascii_of_string d) = true).
  { destruct d; [discriminate|exact Hh]. }
  split.
  - unfold norm_domain.
    rewrite strip_no_space.
    + clear Hh Hlen; induction d as [|c d IH]; [reflexivity|].
      cbn [list_ascii_of_string forallb] in Hall;
        apply andb_true_iff in Hall as [Hc Hall].
      cbn [lower]; rewrite (proj1 (hostname_char_facts c Hc)), IH; auto.
    + apply forallb_forall; intros c Hc.
      rewrite forallb_forall in Hall.
      rewrite (proj2 (hostname_char_facts c (Hall c Hc))); reflexivity.
  - unfold bad_domain.
    rewrite !contains_non_host by (reflexivity || exact Hall).
    rewrite Hall.
    destruct d as [|c d']; [discriminate|].
    apply Nat.ltb_ge in Hlen; rewrite Hlen; reflexivity.
Qed.

Lemma dedup_first_nodup (m : list string) : NoDup m -> dedup_first m = m.
Proof.
  induction m as [|x m IH]; intros Hnd; [reflexivity|].
  inversion Hnd as [|? ? Hx Hm]; subst.
  cbn [dedup_first]; rewrite (IH Hm), notin_remove by exact Hx; reflexivity.
Qed.

(** X2. Normalising an accepted host filter again gives it back
    unchanged. *)
Theorem X2_normalize_domains_idempotent (l n : list string) :
  _normalize_domains (Some l) = Ok (Some n) ->
  _normalize_domains (Some n) = Ok (Some n).
Proof.
  intros H.
  destruct (normalize_domains_wellformed l n H) as [Hne [Hnd Hall]].
  assert (Hmap : map norm_domain n = n).
  { clear Hne Hnd H; induction Hall as [|d n [Hh Hlen] _ IH]; [reflexivity|].
    cbn [map]; rewrite (proj1 (host_entry_fixed d Hh Hlen)), IH; reflexivity. }
  assert (Hgood : forallb (fun raw => negb (bad_domain (norm_domain raw))) n = true).
  { apply forallb_forall; intros d Hd.
    rewrite Forall_forall in Hall; destruct (Hall d Hd) as [Hh Hlen].
    destruct (host_entry_fixed d Hh Hlen) as [-> ->]; reflexivity. }
  unfold _normalize_domains; destruct n as [|x m]; [contradiction|].
  rewrite (normalize_domains_loop_good _ [] [] Hgood), filter_not_seen_nil, Hmap,
    dedup_first_nodup by exact Hnd.
  reflexivity.
Qed.

Lemma X2_witness :
  _normalize_domains (Some ["a.com"; "b-2.org"]) = Ok (Some ["a.com"; "b-2.org"]).
Proof.
  apply (X2_normalize_domains_idempotent [" A.com"; "b-2.org"; "a.COM "]).
  vm_compute; reflexivity.
Defined.

(** ** Query trimming and the API key *)

Lemma lstrip_empty_all_space (t : string) :
  lstrip t = "" -> forallb py_isspace (list_ascii_of_string t) = true.
Proof.
  induction t as [|c t IH]; [reflexivity|]; cbn.
  destruct (py_isspace c); [exact IH|discriminate].
Qed.

Lemma strip_empty_iff (s : string) :
  strip s = "" <-> forallb py_isspace (list_ascii_of_string s) = true.
Proof.
  split; [|apply strip_all_space].
  unfold strip, rstrip.
  destruct (lstrip_head (string_of_list_ascii (rev (list_ascii_of_string s))))
    as [H|[c [r [H Hc]]]]; rewrite H.
  - intros _; apply lstrip_empty_all_space in H.
    rewrite list_ascii_of_string_of_list_ascii in H.
    apply forallb_rev_true in H; rewrite rev_involutive in H; exact H.
  - intros H2; apply lstrip_empty_all_space in H2.
    rewrite list_ascii_of_string_of_list_ascii in H2.
    apply forallb_rev_true in H2; rewrite rev_involutive in H2.
    cbn in H2; rewrite Hc in H2; discriminate.
Qed.

Lemma strip_head (s : string) :
  strip s = "" \/ exists c r, strip s = String c r /\ py_isspace c = false.
Proof. unfold strip; apply lstrip_head. Qed.

Lemma rstrip_fixed (t : string) (y : list ascii) (c : ascii) :
  list_ascii_of_string t = (y ++ [c])%list -> py_isspace c = false -> rstrip t = t.
Proof.
  intros Ht Hc; unfold rstrip; rewrite Ht, rev_app_distr; cbn [rev app].
  cbn [string_of_list_ascii lstrip]; rewrite Hc.
  cbn [list_ascii_of_string]; rewrite list_ascii_of_string_of_list_ascii.
  cbn [rev]; rewrite rev_involutive, <- Ht, string_of_list_ascii_of_string.
  reflexivity.
Qed.

(** X3. An accepted query is non-empty, at most 4096 characters long,
    starts and ends with a non-whitespace character, and is accepted again
    unchanged. *)
Theorem X3_validated_query_trimmed (query q : string) :
  _validate_query query = Ok q ->
  q <> "" /\ String.length q <= 4096
  /\ (exists c r, q = String c r /\ py_isspace c = false)
  /\ (exists y c, list_ascii_of_string q = (y ++ [c])%list /\ py_isspace c = false)
  /\ _validate_query q = Ok q.
Proof.
  intros H; pose proof (validate_query_ok _ _ H) as Hq.
  unfold _validate_query in H.
  destruct (String.eqb_spec (strip query) "") as [|Hne]; [discriminate|].
  case_eq (4096 <? String.length (strip query)); intros Hlen;
    rewrite Hlen in H; [discriminate|].
  apply Nat.ltb_ge in Hlen; subst q.
  destruct (strip_head query) as [|[c [r [Hh Hc]]]]; [contradiction|].
  destruct (strip_last query) as [|[y [c' [Hl Hc']]]]; [contradiction|].
  split; [exact Hne|split; [exact Hlen|split; [eauto|split; [eauto|]]]].
  assert (Hfix : strip (strip query) = strip query).
  { unfold strip at 1; rewrite (rstrip_fixed _ _ _ Hl Hc'), Hh; cbn.
    rewrite Hc; reflexivity. }
  unfold _validate_query; rewrite Hfix.
  destruct (String.eqb_spec (strip query) ""); [contradiction|].
  apply Nat.ltb_ge in Hlen; rewrite Hlen; reflexivity.
Qed.

Lemma X3_witness :
  "a b" <> "" /\ String.length "a b" <= 4096
  /\ (exists c r, "a b" = String c r /\ py_isspace c = false)
  /\ (exists y c, list_ascii_of_string "a b" = (y ++ [c])%list /\ py_isspace c = false)
  /\ _validate_query "a b" = Ok "a b".
Proof. apply (X3_validated_query_trimmed " a b"%string); reflexivity. Defined.

Lemma existsb_not_forallb (f : ascii -> bool) (l : list ascii) :
  existsb (fun c => negb (f c)) l = negb (forallb f l).
Proof.
  induction l as [|c l IH]; [reflexivity|]; cbn.
  rewrite IH; destruct (f c); reflexivity.
Qed.

(** X4. [_create_client] succeeds exactly when [PERPLEXITY_API_KEY] is set
    and holds a non-whitespace character; surrounding whitespace does not
    matter. *)
Theorem X4_create_client_iff_key (getenv : environ) :
  (exists cl, _create_client getenv = Ok cl)
  <-> exists key, getenv "PERPLEXITY_API_KEY" = Some key
                  /\ existsb (fun c => negb (py_isspace c))
                       (list_ascii_of_string key) = true.
Proof.
  unfold _create_client.
  destruct (getenv "PERPLEXITY_API_KEY") as [key|].
  - case_eq (String.eqb (strip key) ""); intros Hk; split.
    + intros [cl Hcl]; discriminate.
    + intros [k [Hs Hex]]; injection Hs as <-.
      rewrite existsb_not_forallb in Hex.
      apply String.eqb_eq, strip_empty_iff in Hk; rewrite Hk in Hex; discriminate.
    + intros _; exists key; split; [reflexivity|].
      rewrite existsb_not_forallb.
      destruct (forallb py_isspace (list_ascii_of_string key)) eqn:Hall;
        [|reflexivity].
      apply strip_empty_iff, String.eqb_eq in Hall; congruence.
    + intros _; eexists; reflexivity.
  - split; [intros [cl Hcl]; discriminate|intros [k [Hs _]]; discriminate].
Qed.

(** ** Output records and call arguments *)

(** X5. In every record produced by [_normalize_results], [last_update]
    equals the date when the date key is set, and is "" when it is not. *)
Theorem X5_last_update_mirrors_date (r : response) (sr : SearchResult) :
  In sr (_normalize_results r) ->
  (forall d, sr_date sr = Some d -> sr_last_update sr = d)
  /\ (sr_date sr = None -> sr_last_update sr = "").
Proof.
  unfold _normalize_results.
  destruct (resp_results r) as [[|x l]|]; [intros []| |intros []].
  intros Hin; apply in_map_iff in Hin as [it [<- _]].
  unfold normalize_item; cbn [sr_date sr_last_update].
  destruct (truthy (it_date it)); cbn iota; split;
    [intros d H; injection H as <-|intros H|intros d H|intros H];
    first [reflexivity|discriminate].
Qed.

Lemma X5_witness :
  (forall d, sr_date (normalize_item (mk_item PyNone PyNone (PyInt 7) PyNone)) = Some d ->
             sr_last_update (normalize_item (mk_item PyNone PyNone (PyInt 7) PyNone)) = d)
  /\ (sr_date (normalize_item (mk_item PyNone PyNone (PyInt 7) PyNone)) = None ->
      sr_last_update (normalize_item (mk_item PyNone PyNone (PyInt 7) PyNone)) = "").
Proof.
  apply (X5_last_update_mirrors_date
           (mk_response (Some [mk_item PyNone PyNone (PyInt 7) PyNone]))).
  left; reflexivity.
Defined.

Lemma clamp_num_results_bounds (nr : pyval) (mr : Z) :
  _clamp_num_results nr = Ok mr -> (1 <= mr <= 30)%Z.
Proof.
  unfold _clamp_num_results, _MIN_RESULTS, _MAX_RESULTS, _DEFAULT_RESULTS.
  destruct nr; [intros E; injection E as <-; lia| | |];
    (destruct (py_int _) as [v|]; [|discriminate];
     destruct (Z.ltb_spec v 1) as [Hlo|Hlo]; [intros E; injection E as <-; lia|];
     destruct (Z.ltb_spec 30 v) as [Hhi|Hhi]; intros E; injection E as <-; lia).
Qed.

(** X6. Every provider call of a request gets the trimmed query, a cap in
    [1, 30], no filter when none was given, and otherwise a non-empty
    filter of distinct well-formed host names. *)
Theorem X6_call_arguments {C : Type} query nr dom (factory : result C)
  (call : provider C) T (c : C) (args : call_args) :
  In (EvCall c args) (run_trace (search_perplexity query nr dom factory call T)) ->
  ca_query args = strip query
  /\ (1 <= ca_max_results args <= 30)%Z
  /\ (dom = None -> ca_search_domain_filter args = None)
  /\ (forall n, ca_search_domain_filter args = Some n ->
        n <> [] /\ NoDup n
        /\ Forall (fun d => hostname_chars (list_ascii_of_string d) = true
                            /\ String.length d <= 253) n).
Proof.
  intros H.
  destruct (_validate_query query) as [q|e] eqn:Hq;
    [|unfold search_perplexity in H; rewrite Hq in H; destruct H].
  destruct (_clamp_num_results nr) as [mr|e] eqn:Hmr;
    [|unfold search_perplexity in H; rewrite Hq, Hmr in H; destruct H].
  destruct (_normalize_domains dom) as [ds|e] eqn:Hds;
    [|unfold search_perplexity in H; rewrite Hq, Hmr, Hds in H; destruct H].
  destruct factory as [c'|e];
    [|unfold search_perplexity in H; rewrite Hq, Hmr, Hds in H;
      destruct H as [H|[]]; discriminate].
  destruct (search_perplexity_trace query nr dom c' call T q mr ds Hq Hmr Hds)
    as [n [_ Htr]].
  rewrite Htr in H; destruct H as [H|H]; [discriminate|].
  apply repeat_spec in H; injection H as -> ->.
  rewrite <- (validate_query_ok _ _ Hq).
  pose proof (clamp_num_results_bounds _ _ Hmr) as Hb.
  split; [|split; [|split]].
  - destruct ds as [[|x l]|]; reflexivity.
  - destruct ds as [[|x l]|]; exact Hb.
  - intros ->; injection Hds as <-; reflexivity.
  - intros m Hm.
    destruct ds as [[|x l]|]; cbn in Hm; try discriminate.
    injection Hm as <-.
    destruct dom as [l'|]; [|discriminate].
    apply (normalize_domains_wellformed l'), Hds.
Qed.

Lemma X6_witness :
  ca_query (mk_call_args "hi" 30 (Some ["a.com"])) = strip " hi "
  /\ (1 <= ca_max_results (mk_call_args "hi" 30 (Some ["a.com"])) <= 30)%Z
  /\ (Some [" A.com"] = None ->
      ca_search_domain_filter (mk_call_args "hi" 30 (Some ["a.com"])) = None)
  /\ (forall n, ca_search_domain_filter (mk_call_args "hi" 30 (Some ["a.com"])) = Some n ->
        n <> [] /\ NoDup n
        /\ Forall (fun d => hostname_chars (list_ascii_of_string d) = true
                            /\ String.length d <= 253) n).
Proof.
  apply (X6_call_arguments " hi " (PyInt 99) (Some [" A.com"]) (Ok mk_Perplexity)
           (flaky_provider httpx_connect_error) 5000 mk_Perplexity).
  vm_compute; right; left; reflexivity.
Defined.

(** ** The [perplexity_search] tool over the adapter *)

Lemma controller_run_returned_in_time (T d : nat) (r : response) :
  d <= T ->
  controller_run T (mk_attempt (Some d) (Returned r)) = Some (Ok (_normalize_results r)).
Proof.
  intros Hd; unfold controller_run; cbn [att_time att_result].
  apply Nat.leb_le in Hd; rewrite Hd; reflexivity.
Qed.

Lemma validate_query_err_value_error (query : string) (e : exc) :
  _validate_query query = Err e -> isinstance_ValueError e = true.
Proof.
  unfold _validate_query.
  destruct (String.eqb _ _); [intros H; injection H as <-; reflexivity|].
  destruct (_ <? _); [intros H; injection H as <-; reflexivity|discriminate].
Qed.

(** X7. A query that fails validation makes the tool raise that
    [ValueError] unchanged, before any client is created or called. *)
Theorem X7_tool_invalid_query (getenv : environ) (query : string) (nr : pyval)
  (call : provider Perplexity) (e : exc) :
  _validate_query query = Err e ->
  perplexity_search getenv query nr call = Some (Err e)
  /\ run_trace (search_perplexity_default getenv query nr None call) = [].
Proof.
  intros Hq.
  pose proof (validate_query_err_value_error _ _ Hq) as Hv.
  unfold perplexity_search, search_perplexity_default, search_perplexity.
  rewrite Hq; cbn [run_result run_trace]; rewrite Hv; split; reflexivity.
Qed.

Lemma X7_witness :
  _validate_query "   " = Err (value_error "query must be a non-empty string after trimming whitespace")
  /\ perplexity_search (fun _ => None) "   " (PyInt 5) (flaky_provider httpx_connect_error)
     = Some (Err (value_error "query must be a non-empty string after trimming whitespace"))
  /\ run_trace (search_perplexity_default (fun _ => None) "   " (PyInt 5) None
                  (flaky_provider httpx_connect_error)) = [].
Proof.
  assert (H : _validate_query "   "
              = Err (value_error "query must be a non-empty string after trimming whitespace"))
    by reflexivity.
  split; [exact H|].
  apply (X7_tool_invalid_query (fun _ => None) "   " (PyInt 5)
           (flaky_provider httpx_connect_error) _ H).
Defined.

(** X8. With a valid query and count but no usable [PERPLEXITY_API_KEY]
    (unset or whitespace only), the tool raises the [OSError] of
    [_create_client] unchanged and the provider is never called. *)
Theorem X8_tool_missing_key (getenv : environ) (query : string) (nr : pyval)
  (call : provider Perplexity) (q : string) (mr : Z) :
  _validate_query query = Ok q ->
  _clamp_num_results nr = Ok mr ->
  (forall key, getenv "PERPLEXITY_API_KEY" = Some key ->
               forallb py_isspace (list_ascii_of_string key) = true) ->
  perplexity_search getenv query nr call
  = Some (Err (mk_exc OSError "OSError" "PERPLEXITY_API_KEY is required but missing or empty"))
  /\ count_calls (run_trace (search_perplexity_default getenv query nr None call)) = 0.
Proof.
  intros Hq Hmr Hkey.
  assert (Hc : _create_client getenv
               = Err (mk_exc OSError "OSError" "PERPLEXITY_API_KEY is required but missing or empty")).
  { unfold _create_client.
    destruct (getenv "PERPLEXITY_API_KEY") as [key|] eqn:Hk; [|reflexivity].
    assert (Hs : strip key = "") by (apply strip_empty_iff, Hkey; reflexivity).
    rewrite Hs; reflexivity. }
  unfold perplexity_search, search_perplexity_default, search_perplexity.
  rewrite Hq, Hmr, Hc; split; reflexivity.
Qed.

Lemma X8_witness :
  perplexity_search (fun k => if String.eqb k "PERPLEXITY_API_KEY" then Some " 	" else None)
    "news" (PyInt 3) (flaky_provider httpx_connect_error)
  = Some (Err (mk_exc OSError "OSError" "PERPLEXITY_API_KEY is required but missing or empty"))
  /\ count_calls (run_trace (search_perplexity_default
       (fun k => if String.eqb k "PERPLEXITY_API_KEY" then Some " 	" else None)
       "news" (PyInt 3) None (flaky_provider httpx_connect_error))) = 0.
Proof.
  apply (X8_tool_missing_key _ "news" (PyInt 3) (flaky_provider httpx_connect_error) "news" 3);
    [reflexivity|reflexivity|].
  intros key Hk.
  change ((if String.eqb "PERPLEXITY_API_KEY" "PERPLEXITY_API_KEY" then Some " 	" else None)
          = Some key) in Hk.
  rewrite String.eqb_refl in Hk; injection Hk as <-; reflexivity.
Defined.

(** X9. When the first provider call returns a response within the 5 s
    deadline, the tool returns the normalized results of that response,
    and the provider is called exactly once. *)
Theorem X9_tool_first_call_success (getenv : environ) (query : string) (nr : pyval)
  (call : provider Perplexity) (q : string) (mr : Z) (c : Perplexity)
  (d : nat) (resp : response) :
  _validate_query query = Ok q ->
  _clamp_num_results nr = Ok mr ->
  _create_client getenv = Ok c ->
  call c 0 (_call_search_args q mr None) = mk_attempt (Some d) (Returned resp) ->
  d <= 5000 ->
  perplexity_search getenv query nr call = Some (Ok (_normalize_results resp))
  /\ count_calls (run_trace (search_perplexity_default getenv query nr None call)) = 1.
Proof.
  intros Hq Hmr Hc Hcall Hd.
  unfold perplexity_search, search_perplexity_default, search_perplexity.
  rewrite Hq, Hmr, Hc; cbv zeta; cbn [_normalize_domains].
  rewrite Hcall, (controller_run_returned_in_time _ _ _ Hd).
  split; reflexivity.
Qed.

Lemma X9_witness :
  perplexity_search (fun _ => Some "k") "news" PyNone (fun _ _ _ => mk_attempt (Some 10) (Returned example_response))
  = Some (Ok (_normalize_results example_response))
  /\ count_calls (run_trace (search_perplexity_default (fun _ => Some "k") "news" PyNone None
       (fun _ _ _ => mk_attempt (Some 10) (Returned example_response)))) = 1.
Proof.
  apply (X9_tool_first_call_success _ _ _ _ "news" 10 mk_Perplexity 10 example_response);
    first [reflexivity | lia].
Defined.

(** X10. A first call that fails within the deadline with an error that is
    neither of the no-retry classes nor transient is not retried: the
    adapter raises that same error after exactly one call. *)
Theorem X10_non_transient_not_retried {C : Type} query nr dom (c : C)
  (call : provider C) T q mr ds d e :
  _validate_query query = Ok q ->
  _clamp_num_results nr = Ok mr ->
  _normalize_domains dom = Ok ds ->
  call c 0 (_call_search_args q mr ds) = mk_attempt (Some d) (Raised e) ->
  d <= T ->
  no_retry_class e = false ->
  _is_transient_error e = false ->
  run_result (search_perplexity query nr dom (Ok c) call T) = Some (Err e)
  /\ run_trace (search_perplexity query nr dom (Ok c) call T)
     = [EvCreateClient; EvCall c (_call_search_args q mr ds)].
Proof.
  intros Hq Hmr Hds Hcall Hd Hcls Htr.
  unfold search_perplexity; rewrite Hq, Hmr, Hds; cbv zeta.
  rewrite Hcall, (controller_run_raised_in_time _ _ _ Hd (no_retry_class_timeout _ Hcls)),
    Hcls, Htr.
  split; reflexivity.
Qed.

Lemma X10_witness :
  run_result (search_perplexity "q" PyNone None (Ok mk_Perplexity)
    (fun _ _ _ => mk_attempt (Some 1) (Raised (mk_exc OtherException "KeyError" "results")))
    5000) = Some (Err (mk_exc OtherException "KeyError" "results"))
  /\ run_trace (search_perplexity "q" PyNone None (Ok mk_Perplexity)
    (fun _ _ _ => mk_attempt (Some 1) (Raised (mk_exc OtherException "KeyError" "results")))
    5000) = [EvCreateClient; EvCall mk_Perplexity (_call_search_args "q" 10 None)].
Proof.
  apply (X10_non_transient_not_retried "q" PyNone None mk_Perplexity _ 5000 "q" 10 None 1);
    first [reflexivity | lia].
Defined.

(** X11. When the first call fails with a transient error and the retry
    fails with [e2], the tool raises a plain [Exception] whose message
    wraps the adapter's wrapper:
    "perplexity_search failed: Exception: perplexity_search failed after
    retry: <name of e2>: <e2>". *)
Theorem X11_tool_double_wrap (getenv : environ) (query : string) (nr : pyval)
  (call : provider Perplexity) (q : string) (mr : Z) (c : Perplexity) (e1 e2 : exc) :
  _validate_query query = Ok q ->
  _clamp_num_results nr = Ok mr ->
  _create_client getenv = Ok c ->
  controller_run 5000 (call c 0 (_call_search_args q mr None)) = Some (Err e1) ->
  no_retry_class e1 = false ->
  _is_transient_error e1 = true ->
  controller_run 5000 (call c 1 (_call_search_args q mr None)) = Some (Err e2) ->
  perplexity_search getenv query nr call
  = Some (Err (mk_exc OtherException "Exception"
      ("perplexity_search failed: Exception: perplexity_search failed after retry: "
       ++ exc_name e2 ++ ": " ++ exc_msg e2))).
Proof.
  intros Hq Hmr Hc H1 Hcls Htr H2.
  unfold perplexity_search, search_perplexity_default, search_perplexity.
  rewrite Hq, Hmr, Hc; cbv zeta; cbn [_normalize_domains].
  rewrite H1, Hcls, Htr, H2; reflexivity.
Qed.

Lemma X11_witness :
  perplexity_search (fun _ => Some "k") "news" PyNone
    (fun _ n _ => if n =? 0 then mk_attempt (Some 1) (Raised httpx_connect_error)
                  else mk_attempt (Some (5000 + 1)) (Returned example_response))
  = Some (Err (mk_exc OtherException "Exception"
      ("perplexity_search failed: Exception: perplexity_search failed after retry: "
       ++ exc_name (timeout_exc 5000) ++ ": " ++ exc_msg (timeout_exc 5000)))).
Proof.
  apply (X11_tool_double_wrap _ _ _ _ "news" 10 mk_Perplexity httpx_connect_error);
    reflexivity.
Defined.

(** ** [_parse_log_level] *)

Lemma ascii_digit_facts (c : ascii) :
  is_ascii_digit c = true ->
  py_isspace c = false /\ Ascii.eqb c "_" = false /\ Ascii.eqb c "-" = false
  /\ Ascii.eqb c "+" = false
  /\ digit_val c = Some (Z.of_nat (nat_of_ascii c - 48))
  /\ is_ascii_digit (upper_char c) = true.
Proof.
  destruct c as [[] [] [] [] [] [] [] []]; vm_compute;
    first [intros H; discriminate H | intros _; repeat split].
Qed.

Lemma parse_digits_all (l : list ascii) (acc : Z) (pd : bool) :
  forallb is_ascii_digit l = true -> (l <> [] \/ pd = true) ->
  parse_digits (string_of_list_ascii l) acc pd
  = Some (fold_left (fun a c => a * 10 + Z.of_nat (nat_of_ascii c - 48))%Z l acc).
Proof.
  revert acc pd; induction l as [|c l IH]; intros acc pd Hall Hne.
  - destruct Hne as [Hne | ->]; [contradiction|reflexivity].
  - cbn [forallb] in Hall; apply andb_prop in Hall as [Hc Hall].
    destruct (ascii_digit_facts c Hc) as [_ [Hu [_ [_ [Hd _]]]]].
    cbn [string_of_list_ascii parse_digits fold_left].
    rewrite Hu, Hd; apply IH; [exact Hall|right; reflexivity].
Qed.

Lemma parse_log_level_by_name (s : string) (c : ascii) (r : string) :
  upper s = String c r -> is_ascii_digit c = false ->
  _parse_log_level (Some s)
  = match logging_getattr (String c r) with Some a => a | None => logging_INFO end.
Proof.
  intros H Hc.
  destruct s as [|c' r']; [discriminate|].
  assert (Hc' : is_ascii_digit c' = false).
  { destruct (is_ascii_digit c') eqn:E; [|reflexivity].
    cbn [upper] in H; injection H as Hu _.
    destruct (ascii_digit_facts c' E) as [_ [_ [_ [_ [_ Hup]]]]].
    rewrite Hu, Hc in Hup; discriminate. }
  unfold _parse_log_level.
  change (String.eqb (String c' r') "") with false; cbn iota.
  change (isdigit (String c' r'))
    with (is_ascii_digit c' && forallb is_ascii_digit (list_ascii_of_string r')).
  rewrite Hc', H; reflexivity.
Qed.

Lemma filter_forallb_id {A : Type} (f : A -> bool) (l : list A) :
  forallb f l = true -> filter f l = l.
Proof.
  induction l as [|x l IH]; [reflexivity|].
  cbn [forallb filter]; intros H; apply andb_prop in H as [Hx Hl].
  rewrite Hx, (IH Hl); reflexivity.
Qed.

Lemma length_list_ascii_of_string (s : string) :
  length (list_ascii_of_string s) = String.length s.
Proof. induction s as [|c s IH]; cbn; [reflexivity|rewrite IH; reflexivity]. Qed.

(** X12. An all-digit [LOG_LEVEL] of at most 4300 digits (the default
    [int()] digit limit) is read as its decimal value, leading zeros
    included; a longer one makes [int()] raise and gives INFO (20). *)
Theorem X12_parse_log_level_numeric (s : string) :
  isdigit s = true ->
  _parse_log_level (Some s)
  = if String.length s <=? int_max_str_digits
    then LevelConst (dec_value (list_ascii_of_string s))
    else LevelConst 20.
Proof.
  intros Hd.
  destruct s as [|c r]; [discriminate|].
  assert (Hall : forallb is_ascii_digit (list_ascii_of_string (String c r)) = true)
    by exact Hd.
  assert (Hc : is_ascii_digit c = true)
    by (cbn [list_ascii_of_string forallb] in Hall; apply andb_prop in Hall; apply Hall).
  destruct (ascii_digit_facts c Hc) as [_ [_ [Hm [Hp _]]]].
  assert (Hs : strip (String c r) = String c r).
  { apply strip_no_space, forallb_forall; intros x Hx.
    apply (proj1 (forallb_forall _ _) Hall) in Hx.
    destruct (ascii_digit_facts x Hx) as [Hsp _]; rewrite Hsp; reflexivity. }
  unfold _parse_log_level.
  change (String.eqb (String c r) "") with false; cbn iota.
  rewrite Hd; unfold py_int_of_string; rewrite Hs.
  rewrite (filter_forallb_id _ _ Hall), length_list_ascii_of_string.
  destruct (Nat.ltb_spec int_max_str_digits (String.length (String c r))) as [Hlt|Hle];
    destruct (Nat.leb_spec (String.length (String c r)) int_max_str_digits); try lia;
    [reflexivity|].
  rewrite Hm, Hp.
  rewrite <- (string_of_list_ascii_of_string (String c r)) at 1.
  assert (Hne : list_ascii_of_string (String c r) <> []) by discriminate.
  rewrite (parse_digits_all _ 0%Z false Hall (or_introl Hne)).
  reflexivity.
Qed.

Lemma X12_witness :
  isdigit "0042" = true
  /\ _parse_log_level (Some "0042")
     = if String.length "0042" <=? int_max_str_digits
       then LevelConst (dec_value (list_ascii_of_string "0042"))
       else LevelConst 20.
Proof.
  split; [reflexivity|].
  apply (X12_parse_log_level_numeric "0042"); reflexivity.
Defined.

(** X13. A [LOG_LEVEL] that upper-cases to the name of a logging level is
    read as that level, whatever its case. *)
Theorem X13_parse_log_level_names (s name : string) (n : Z) :
  upper s = name ->
  In (name, n) [("CRITICAL", 50%Z); ("FATAL", 50%Z); ("ERROR", 40%Z);
                ("WARNING", 30%Z); ("WARN", 30%Z); ("INFO", 20%Z);
                ("DEBUG", 10%Z); ("NOTSET", 0%Z)] ->
  _parse_log_level (Some s) = LevelConst n.
Proof.
  intros <- Hin; cbn [In] in Hin.
  repeat match goal with
         | H : _ \/ _ |- _ => destruct H as [H|H]
         | H : False |- _ => destruct H
         end;
    injection Hin as Hs <-;
    rewrite (parse_log_level_by_name s _ _ (eq_sym Hs) eq_refl); reflexivity.
Qed.

Lemma X13_witness :
  upper "Warn" = "WARN"
  /\ _parse_log_level (Some "Warn") = LevelConst 30.
Proof.
  split; [reflexivity|].
  apply (X13_parse_log_level_names "Warn" "WARN" 30); [reflexivity|].
  cbn [In]; right; right; right; right; left; reflexivity.
Defined.

(** X14. An unset or empty [LOG_LEVEL] gives INFO (20), and so does any
    value that is not all digits and does not upper-case to a logging
    attribute, such as a padded " debug" or a negative "-10". *)
Theorem X14_parse_log_level_fallback (s : string) :
  isdigit s = false ->
  ~ In (upper s) ["CRITICAL"; "FATAL"; "ERROR"; "WARNING"; "WARN"; "INFO";
                  "DEBUG"; "NOTSET"; "BASIC_FORMAT"; "_STYLES"] ->
  _parse_log_level None = LevelConst 20
  /\ _parse_log_level (Some "") = LevelConst 20
  /\ _parse_log_level (Some s) = LevelConst 20.
Proof.
  intros Hd Hnin; split; [reflexivity|split; [reflexivity|]].
  unfold _parse_log_level.
  destruct (String.eqb s ""); [reflexivity|].
  rewrite Hd; unfold logging_getattr.
  repeat match goal with
         | |- context [String.eqb (upper s) ?b] =>
             destruct (String.eqb_spec (upper s) b) as [Heq|_];
             [exfalso; apply Hnin; rewrite Heq; cbn [In]; tauto|]
         end.
  reflexivity.
Qed.

Lemma X14_witness :
  isdigit " debug" = false
  /\ _parse_log_level None = LevelConst 20
  /\ _parse_log_level (Some "") = LevelConst 20
  /\ _parse_log_level (Some " debug") = LevelConst 20.
Proof.
  split; [reflexivity|].
  apply (X14_parse_log_level_fallback " debug"); [reflexivity|].
  vm_compute; intros H; repeat (destruct H as [H|H]; [discriminate H|]); exact H.
Defined.

(** ** Deadline overruns *)

(** X15. A first provider call that finishes only after the 5 s deadline
    is not retried, since [TimeoutError] is an [OSError]: the tool raises
    the controller's [TimeoutError] unchanged after exactly one call. *)
Theorem X15_tool_timeout_not_retried (getenv : environ) (query : string) (nr : pyval)
  (call : provider Perplexity) (q : string) (mr : Z) (c : Perplexity)
  (d : nat) (cr : call_result) :
  _validate_query query = Ok q ->
  _clamp_num_results nr = Ok mr ->
  _create_client getenv = Ok c ->
  call c 0 (_call_search_args q mr None) = mk_attempt (Some d) cr ->
  5000 < d ->
  perplexity_search getenv query nr call
  = Some (Err (mk_exc TimeoutError "TimeoutError" "Perplexity search timed out after 5000ms"))
  /\ count_calls (run_trace (search_perplexity_default getenv query nr None call)) = 1.
Proof.
  intros Hq Hmr Hc Hcall Hd.
  assert (Hfirst : controller_run 5000 (call c 0 (_call_search_args q mr None))
                   = Some (Err (timeout_exc 5000))).
  { rewrite Hcall; unfold controller_run; cbn [att_time].
    destruct (Nat.leb_spec d 5000); [lia|reflexivity]. }
  unfold perplexity_search, search_perplexity_default, search_perplexity.
  rewrite Hq, Hmr, Hc; cbv zeta; cbn [_normalize_domains].
  rewrite Hfirst; split; reflexivity.
Qed.

Lemma X15_witness :
  perplexity_search (fun _ => Some "k") "news" (PyInt 3)
    (fun _ _ _ => mk_attempt (Some (5000 + 1)) (Returned example_response))
  = Some (Err (mk_exc TimeoutError "TimeoutError" "Perplexity search timed out after 5000ms"))
  /\ count_calls (run_trace (search_perplexity_default (fun _ => Some "k") "news" (PyInt 3) None
       (fun _ _ _ => mk_attempt (Some (5000 + 1)) (Returned example_response)))) = 1.
Proof.
  apply (X15_tool_timeout_not_retried _ _ _ _ "news" 3 mk_Perplexity (5000 + 1)
           (Returned example_response)); first [reflexivity | lia].
Defined.
